(** * guppy-runner: the command-line front end and the LLVM-to-object stage

    A shallow embedding of [guppy_runner/__main__.py] and of
    [guppy_runner/compile/llvm_compiler.py].

    Python values are modelled as follows.
    - [str] is [string]; [bytes] is [list byte].
    - [pathlib.Path] is the record [Pathlib.Path] of a parsed POSIX path.
    - [os.environ] is a [gmap string string].
    - Code that logs, spawns a process or raises runs in the monad [M], a
      trace of events paired with a returned value or a raised exception.
    - The operating system (the process launcher, the file reader, the
      pipeline driver) is a Section variable. *)

From Stdlib Require Import ZArith NArith List String Ascii Bool Lia.
From Stdlib.Strings Require Import Byte.
From stdpp Require Import base option gmap strings list.

Open Scope string_scope.
Open Scope list_scope.

(** ** Python built-ins used by the two modules *)

Module Py.

Definition bytes := list byte.

(** [sep.join(parts)] *)
Definition join (sep : string) (parts : list string) : string :=
  String.concat sep parts.

(** [s.split(sep)] for a one-character separator: never the empty list. *)
Fixpoint split (sep : ascii) (s : string) : list string :=
  match s with
  | EmptyString => [EmptyString]
  | String c s' =>
      if Ascii.eqb c sep then EmptyString :: split sep s'
      else match split sep s' with
           | [] => [String c EmptyString]
           | w :: ws => String c w :: ws
           end
  end.

Definition LF : N := 10.
Definition CR : N := 13.

(** The loop of [splitlines] (CPython [stringlib_splitlines], keepends
    false) over code units [A]: a line runs up to the next break; CR LF is
    one break; a break at the very end opens no further line.  [line] is
    the current line reversed, [pending] whether it has been opened. *)
Fixpoint splitlines_go {A} (code : A -> N) (is_break : N -> bool)
    (line : list A) (pending : bool) (s : list A) : list (list A) :=
  match s with
  | [] => if pending then [rev line] else []
  | c :: s' =>
      if is_break (code c) then
        if N.eqb (code c) CR then
          match s' with
          | c' :: s'' =>
              if N.eqb (code c') LF
              then rev line :: splitlines_go code is_break [] false s''
              else rev line :: splitlines_go code is_break [] false s'
          | [] => [rev line]
          end
        else rev line :: splitlines_go code is_break [] false s'
      else splitlines_go code is_break (c :: line) true s'
  end.

(** [bytes.splitlines()]: only LF, CR and CR LF break a line. *)
Definition bytes_is_break (n : N) : bool := N.eqb n LF || N.eqb n CR.

Definition bytes_splitlines (b : bytes) : list bytes :=
  splitlines_go Byte.to_N bytes_is_break [] false b.

(** [str.splitlines()], for text whose code points are below 256: LF, CR,
    VT, FF, FS, GS, RS and NEL break a line. *)
Definition str_is_break (n : N) : bool :=
  N.eqb n LF || N.eqb n CR || N.eqb n 11 || N.eqb n 12
  || N.eqb n 28 || N.eqb n 29 || N.eqb n 30 || N.eqb n 133.

Definition str_splitlines (s : string) : list string :=
  map string_of_list_ascii
      (splitlines_go N_of_ascii str_is_break [] false (list_ascii_of_string s)).

(** [repr] of a bytes object (CPython [PyBytes_Repr] with smart quotes). *)
Definition hexdigit (n : N) : ascii :=
  if N.ltb n 10 then ascii_of_N (48 + n) else ascii_of_N (87 + n).

Definition SQUOTE : N := 39.
Definition DQUOTE : N := 34.
Definition BACKSLASH : N := 92.

Definition repr_quote (b : bytes) : N :=
  if existsb (fun c => N.eqb (Byte.to_N c) SQUOTE) b
     && negb (existsb (fun c => N.eqb (Byte.to_N c) DQUOTE) b)
  then DQUOTE else SQUOTE.

Definition repr_byte (quote : N) (c : byte) : list ascii :=
  let n := Byte.to_N c in
  if N.eqb n quote || N.eqb n BACKSLASH then ["\"%char; ascii_of_N n]
  else if N.eqb n 9 then ["\"%char; "t"%char]
  else if N.eqb n LF then ["\"%char; "n"%char]
  else if N.eqb n CR then ["\"%char; "r"%char]
  else if N.ltb n 32 || N.leb 127 n then
    ["\"%char; "x"%char;
     hexdigit (N.shiftr (N.land n 240) 4); hexdigit (N.land n 15)]
  else [ascii_of_N n].

Definition bytes_repr (b : bytes) : string :=
  let quote := repr_quote b in
  string_of_list_ascii
    ("b"%char :: ascii_of_N quote
      :: flat_map (repr_byte quote) b ++ [ascii_of_N quote]).

(** A value that an f-string may interpolate here: text or bytes.
    [format(v, '')] is [str(v)]; for bytes that is [repr(v)]. *)
Inductive Data :=
| Str (s : string)
| Bytes (b : bytes).

Definition format (v : Data) : string :=
  match v with
  | Str s => s
  | Bytes b => bytes_repr b
  end.

(** [v.splitlines()] followed by [next(iter(...), default)]. *)
Definition splitlines (v : Data) : list Data :=
  match v with
  | Str s => map Str (str_splitlines s)
  | Bytes b => map Bytes (bytes_splitlines b)
  end.

Definition next_iter {A} (l : list A) (default : A) : A :=
  match l with
  | [] => default
  | x :: _ => x
  end.

(** [needle in haystack] on [str]. *)
Fixpoint contains (needle haystack : string) : bool :=
  String.prefix needle haystack
  || match haystack with
     | EmptyString => false
     | String _ rest => contains needle rest
     end.

End Py.

(** ** pathlib: pure POSIX paths *)

Module Pathlib.

(** A parsed path: [root] is the empty string, one slash or two slashes;
    [tail] holds the components, none of them empty or a single dot. *)
Record Path := mkPath { root : string; tail : list string }.

(** [posixpath.splitroot] *)
Definition splitroot (p : string) : string * string :=
  match p with
  | String "/" (String "/" (String "/" r)) => ("/", String "/" (String "/" r))
  | String "/" (String "/" r) => ("//", r)
  | String "/" r => ("/", r)
  | _ => ("", p)
  end.

Definition keep_part (x : string) : bool :=
  negb (String.eqb x "") && negb (String.eqb x ".").

(** [Path(s)] *)
Definition of_str (s : string) : Path :=
  let '(rt, rel) := splitroot s in
  {| root := rt; tail := filter (fun x => keep_part x = true) (Py.split "/" rel) |}.

(** [str(p)], which is also [os.fspath(p)] *)
Definition str (p : Path) : string :=
  let s := root p +:+ Py.join "/" (tail p) in
  if String.eqb s "" then "." else s.

(** [bool(p)]: a path defines neither [__bool__] nor [__len__], so every
    path object is true; only [None] is false in [Path | None]. *)
Definition truthy (p : option Path) : bool :=
  match p with
  | None => false
  | Some _ => true
  end.

#[global] Instance Path_eq_dec : EqDecision Path.
Proof. solve_decision. Defined.

End Pathlib.

(** ** guppy_runner.stage: the stage and encoding enumerations *)

(** The members are those the two modules name.  Modelled from the spec:
    the declaration of [Stage] is in [guppy_runner/stage.py]; the spec gives
    its order, source first and executable last, each stage strictly below
    the next. *)
Inductive Stage :=
| GUPPY | HUGR | HUGR_MLIR | LOWERED_MLIR | LLVM | OBJECT | EXECUTABLE.

Inductive EncodingMode := BITCODE | TEXTUAL.

#[global] Instance Stage_eq_dec : EqDecision Stage.
Proof. solve_decision. Defined.

#[global] Instance EncodingMode_eq_dec : EqDecision EncodingMode.
Proof. solve_decision. Defined.

Definition Stage_value (s : Stage) : Z :=
  match s with
  | GUPPY => 0 | HUGR => 1 | HUGR_MLIR => 2 | LOWERED_MLIR => 3
  | LLVM => 4 | OBJECT => 5 | EXECUTABLE => 6
  end.

(** [a >= b] on stages *)
Definition Stage_ge (a b : Stage) : bool := (Stage_value b <=? Stage_value a)%Z.

(** [stage.name] *)
Definition Stage_name (s : Stage) : string :=
  match s with
  | GUPPY => "GUPPY" | HUGR => "HUGR" | HUGR_MLIR => "HUGR_MLIR"
  | LOWERED_MLIR => "LOWERED_MLIR" | LLVM => "LLVM" | OBJECT => "OBJECT"
  | EXECUTABLE => "EXECUTABLE"
  end.

(** ** Exceptions, events and the effect monad *)

Inductive Exception :=
| UnsupportedEncodingError (stage : Stage) (encoding : EncodingMode)
| LlcNotFoundError (msg : string)
| LlcError (msg : string)
| OSError (errno : Z)
| SystemExit (code : Z).

Inductive ExcClass :=
| cls_Exception | cls_CompilerError | cls_LlvmError | cls_LlcNotFoundError
| cls_LlcError | cls_UnsupportedEncodingError | cls_OSError | cls_SystemExit.

#[global] Instance ExcClass_eq_dec : EqDecision ExcClass.
Proof. solve_decision. Defined.

Definition class_of (e : Exception) : ExcClass :=
  match e with
  | UnsupportedEncodingError _ _ => cls_UnsupportedEncodingError
  | LlcNotFoundError _ => cls_LlcNotFoundError
  | LlcError _ => cls_LlcError
  | OSError _ => cls_OSError
  | SystemExit _ => cls_SystemExit
  end.

(** The base class in each [class] statement of [llvm_compiler.py].
    Modelled from the spec: [CompilerError] and [UnsupportedEncodingError]
    are declared in [guppy_runner/compile/__init__.py]; the spec puts every
    compiler error in the [CompilerError] family. *)
Definition base (c : ExcClass) : option ExcClass :=
  match c with
  | cls_LlvmError => Some cls_CompilerError
  | cls_LlcNotFoundError => Some cls_LlvmError
  | cls_LlcError => Some cls_LlvmError
  | cls_UnsupportedEncodingError => Some cls_CompilerError
  | cls_CompilerError => Some cls_Exception
  | cls_OSError => Some cls_Exception
  | cls_SystemExit => None
  | cls_Exception => None
  end.

Fixpoint mro (fuel : nat) (c : ExcClass) : list ExcClass :=
  c :: match fuel with
       | O => []
       | S fuel' => match base c with
                    | Some b => mro fuel' b
                    | None => []
                    end
       end.

Definition issubclass (c d : ExcClass) : bool :=
  bool_decide (d ∈ mro 8 c).

(** [pipeline] keyword arguments of [run_guppy_from_stage]. *)
Record RunOptions := {
  hugr_out : option Pathlib.Path;
  hugr_mlir_out : option Pathlib.Path;
  lowered_mlir_out : option Pathlib.Path;
  llvm_out : option Pathlib.Path;
  obj_out : option Pathlib.Path;
  bin_out : option Pathlib.Path;
  opt_no_run : bool;
  opt_module_name : option string
}.

(** What a run does to the outside world, in order. *)
Inductive Event :=
| LogInfo (fmt : string) (args : list EncodingMode)
| Spawn (argv : list string) (capture_output check text : bool)
| ParserError (message : string)
| BasicConfigInfo
| ReadPath (stage : Stage) (path : Pathlib.Path) (encoding : EncodingMode)
| ReadStdin (stage : Stage) (encoding : EncodingMode)
| RunPipeline (opts : RunOptions).

Inductive Result (A : Type) :=
| Return (a : A)
| Raise (e : Exception).
Arguments Return {A} a.
Arguments Raise {A} e.

Definition M (A : Type) : Type := list Event * Result A.

Definition ret {A} (a : A) : M A := ([], Return a).
Definition raise {A} (e : Exception) : M A := ([], Raise e).
Definition emit (ev : Event) : M unit := ([ev], Return tt).

Definition bind {A B} (m : M A) (k : A -> M B) : M B :=
  match m with
  | (t, Return a) => let '(t', r) := k a in (t ++ t', r)
  | (t, Raise e) => (t, Raise e)
  end.

Definition trace {A} (m : M A) : list Event := fst m.
Definition result {A} (m : M A) : Result A := snd m.

Declare Scope py_scope.
Delimit Scope py_scope with py.
Notation "x <- m ; k" := (bind m (fun x => k))
  (at level 100, m at next level, right associativity) : py_scope.
Notation "m ;; k" := (bind m (fun _ => k))
  (at level 100, right associativity) : py_scope.

Definition is_log (ev : Event) : bool :=
  match ev with LogInfo _ _ => true | _ => false end.

Definition is_spawn (ev : Event) : bool :=
  match ev with Spawn _ _ _ _ => true | _ => false end.

(** The events in which work begins: a read of the input artifact, the
    pipeline driver, an external process. *)
Definition is_work (ev : Event) : bool :=
  match ev with
  | Spawn _ _ _ _ | ReadPath _ _ _ | ReadStdin _ _ | RunPipeline _ => true
  | _ => false
  end.

(** The argv of every process that a run spawns, in order. *)
Definition spawned {A} (m : M A) : list (list string) :=
  flat_map (fun ev => match ev with Spawn argv _ _ _ => [argv] | _ => [] end)
           (trace m).

(** ** guppy_runner/compile/llvm_compiler.py *)

Module LlvmCompiler.

Definition LLC : string := "llc".
Definition LLC_ENV : string := "LLC".
Definition DEFAULT_OBJ : Pathlib.Path := Pathlib.of_str "a.o".

Definition INPUT_STAGE : Stage := LLVM.
Definition OUTPUT_STAGE : Stage := OBJECT.

Definition NL : string := String (ascii_of_N Py.LF) EmptyString.

(** An element of the command list: a path or a string.  [str(c)] and
    the [os.fspath(c)] that [subprocess] applies agree on both. *)
Inductive Arg :=
| APath (p : Pathlib.Path)
| AStr (s : string).

Definition Arg_str (a : Arg) : string :=
  match a with
  | APath p => Pathlib.str p
  | AStr s => s
  end.

(** [subprocess.CalledProcessError] *)
Record CalledProcessError := {
  returncode : Z;
  cmd : list string;
  output : Py.Data;
  stderr : Py.Data
}.

(** [LlcNotFoundError.__init__] *)
Definition LlcNotFoundError_init : Exception :=
  LlcNotFoundError ("Could not find '" +:+ LLC +:+ "' binary in your $PATH.").

(** [LlcError.__init__] *)
Definition LlcError_init (perror : CalledProcessError) : Exception :=
  let err_line := Py.next_iter (Py.splitlines (stderr perror)) (Py.Str "") in
  LlcError ("An error occurred while calling '" +:+ LLC +:+ "':" +:+ NL
            +:+ Py.format err_line).

(** What the operating system does with an argv. *)
Inductive ProcOutcome :=
| ExecNotFound
| ExecFailed (errno : Z)
| Exited (status : Z) (out err : Py.bytes).

Inductive RunError :=
| FileNotFoundError
| OtherOSError (errno : Z)
| CalledProcess (perror : CalledProcessError).

Section Process.

(** [os.environ] *)
Variable environ : gmap string string.
(** the process launcher *)
Variable spawn : list string -> ProcOutcome.
(** the locale decoding that [text=True] applies to a captured stream *)
Variable decode : Py.bytes -> string.

Definition captured (text : bool) (b : Py.bytes) : Py.Data :=
  if text then Py.Str (decode b) else Py.Bytes b.

(** [subprocess.run(cmd, capture_output=True, check=True, text=text)] *)
Definition subprocess_run (cmd : list Arg) (text : bool)
  : list Event * (RunError + unit) :=
  let argv := map Arg_str cmd in
  ([Spawn argv true true text],
   match spawn argv with
   | ExecNotFound => inl FileNotFoundError
   | ExecFailed errno => inl (OtherOSError errno)
   | Exited status out err =>
       if (status =? 0)%Z then inr tt
       else inl (CalledProcess
                   {| returncode := status; cmd := argv;
                      output := captured text out;
                      stderr := captured text err |})
   end).

Definition _get_compiler : Pathlib.Path * bool :=
  match environ !! LLC_ENV with
  | Some v => (Pathlib.of_str v, true)
  | None => (Pathlib.of_str LLC, false)
  end.

Definition process_stage
    (input_path : Pathlib.Path) (input_encoding : EncodingMode)
    (output_path : option Pathlib.Path) (output_encoding : EncodingMode)
    (temp_file : bool) (module_name : option string) : M Pathlib.Path :=
  if decide (output_encoding = TEXTUAL) then
    raise (UnsupportedEncodingError OUTPUT_STAGE output_encoding)
  else
    (* [if not output_path: output_path = DEFAULT_OBJ] *)
    let output_path : Pathlib.Path :=
      match output_path with
      | Some p => if negb (Pathlib.truthy (Some p)) then DEFAULT_OBJ else p
      | None => DEFAULT_OBJ
      end in
    let output_as_text := bool_decide (output_encoding = TEXTUAL) in
    let cmd := [APath (fst _get_compiler); APath input_path; AStr "--filetype=obj"] in
    let cmd := if Pathlib.truthy (Some output_path)
               then cmd ++ [AStr "-o"; APath output_path] else cmd in
    let cmd_str := Py.join " " (map Arg_str cmd) in
    let msg := "Executing command: '" +:+ cmd_str +:+ "'" in
    (emit (LogInfo msg []) ;;
     match subprocess_run cmd output_as_text with
     | (t, inr _) => (t, Return output_path)
     | (t, inl FileNotFoundError) => (t, Raise LlcNotFoundError_init)
     | (t, inl (CalledProcess err)) => (t, Raise (LlcError_init err))
     | (t, inl (OtherOSError errno)) => (t, Raise (OSError errno))
     end)%py.

(** The argv that [process_stage] hands to [subprocess.run] once the
    encoding check has passed (lines 46 to 52 of the source). *)
Definition command_line (input_path : Pathlib.Path)
    (output_path : option Pathlib.Path) : list string :=
  [Pathlib.str (fst _get_compiler); Pathlib.str input_path;
   "--filetype=obj"; "-o";
   Pathlib.str (match output_path with Some p => p | None => DEFAULT_OBJ end)].

End Process.

End LlvmCompiler.

(** ** guppy_runner/__main__.py *)

Module Cli.

(** The namespace that [parser.parse_args()] returns, one field per
    [add_argument], and the two attributes [input_stage] and
    [input_encoding] that [parse_args] writes before anything reads them
    (see [parse_args_overwrites]). *)
Record Namespace := {
  verbose : bool;
  module_name : option string;
  input : option Pathlib.Path;
  hugr : bool;
  hugr_mlir : bool;
  llvm_mlir : bool;
  llvm : bool;
  bitcode : bool;
  textual : bool;
  store_hugr : option Pathlib.Path;
  store_hugr_mlir : option Pathlib.Path;
  store_llvm_mlir : option Pathlib.Path;
  store_llvm : option Pathlib.Path;
  store_obj : option Pathlib.Path;
  store_bin : option Pathlib.Path;
  output : option Pathlib.Path;
  no_run : bool;
  input_stage : Stage;
  input_encoding : EncodingMode
}.

(** [args.input_stage = st] *)
Definition set_input_stage (args : Namespace) (st : Stage) : Namespace :=
  {| verbose := verbose args; module_name := module_name args;
     input := input args; hugr := hugr args; hugr_mlir := hugr_mlir args;
     llvm_mlir := llvm_mlir args; llvm := llvm args;
     bitcode := bitcode args; textual := textual args;
     store_hugr := store_hugr args; store_hugr_mlir := store_hugr_mlir args;
     store_llvm_mlir := store_llvm_mlir args; store_llvm := store_llvm args;
     store_obj := store_obj args; store_bin := store_bin args;
     output := output args; no_run := no_run args;
     input_stage := st; input_encoding := input_encoding args |}.

(** [args.input_encoding = enc] *)
Definition set_input_encoding (args : Namespace) (enc : EncodingMode) : Namespace :=
  {| verbose := verbose args; module_name := module_name args;
     input := input args; hugr := hugr args; hugr_mlir := hugr_mlir args;
     llvm_mlir := llvm_mlir args; llvm := llvm args;
     bitcode := bitcode args; textual := textual args;
     store_hugr := store_hugr args; store_hugr_mlir := store_hugr_mlir args;
     store_llvm_mlir := store_llvm_mlir args; store_llvm := store_llvm args;
     store_obj := store_obj args; store_bin := store_bin args;
     output := output args; no_run := no_run args;
     input_stage := input_stage args; input_encoding := enc |}.

Definition count_true (flags : list bool) : nat :=
  length (filter (fun b => b = true) flags).

(** What argparse accepts: at most one flag of each mutually exclusive
    group ([input_mode], [input_encoding]). *)
Definition parseable (args : Namespace) : bool :=
  (count_true [hugr args; hugr_mlir args; llvm_mlir args; llvm args] <=? 1)%nat
  && (count_true [bitcode args; textual args] <=? 1)%nat.

Definition get_input_state (args : Namespace) : Stage :=
  if hugr args then HUGR
  else if hugr_mlir args then HUGR_MLIR
  else if llvm_mlir args then LOWERED_MLIR
  else if llvm args then LLVM
  else GUPPY.

(** [x is not None] *)
Definition is_not_None {A} (x : option A) : bool :=
  match x with
  | Some _ => true
  | None => false
  end.

(** [parser.error(message)]: argparse prints the usage and the message
    on standard error and exits with status 2. *)
Definition parser_error (message : string) : M unit :=
  (emit (ParserError message) ;; raise (SystemExit 2))%py.

Definition store_requires (args : Namespace) : list (option Pathlib.Path * Stage) :=
  [ (store_hugr args, HUGR);
    (store_hugr_mlir args, HUGR_MLIR);
    (store_llvm_mlir args, LOWERED_MLIR);
    (store_llvm args, LLVM);
    (store_obj args, OBJECT);
    (store_bin args, EXECUTABLE) ].

Definition cannot_produce (stage : Stage) : string :=
  "Cannot produce a " +:+ Stage_name stage +:+ " artifact from the given input.".

(** the [for store, stage in store_requires] loop *)
Fixpoint validate_loop (args : Namespace)
    (pairs : list (option Pathlib.Path * Stage)) : M unit :=
  match pairs with
  | [] => ret tt
  | (store, stage) :: rest =>
      ((if is_not_None store && Stage_ge (input_stage args) stage
        then parser_error (cannot_produce stage)
        else ret tt) ;;
       validate_loop args rest)%py
  end.

Definition validate_args (args : Namespace) : M unit :=
  validate_loop args (store_requires args).

(** A pair of [store_requires] that asks for a stage at or before the
    input stage: the condition under which the loop calls [parser.error]. *)
Definition offends (args : Namespace) (pair : option Pathlib.Path * Stage) : Prop :=
  fst pair <> None /\ (Stage_value (snd pair) <= Stage_value (input_stage args))%Z.

Definition DETECT_MSG : string :=
  "Cannot detect the encoding mode from the input file extension. "
  +:+ "Defaulting to %s.".

Section Collaborators.

(** [EncodingMode.from_file], declared in [guppy_runner/stage.py]: the
    encoding that the table of known extensions gives the file for the
    stage, [None] when the extension is not in it. *)
Variable from_file : Pathlib.Path -> Stage -> option EncodingMode.

(** [StageData] with its constructors [from_path] and [from_stdin], and
    the pipeline driver [run_guppy_from_stage], all declared outside the
    two modules. *)
Variable StageData : Type.
Variable from_path : Stage -> Pathlib.Path -> EncodingMode -> Result StageData.
Variable from_stdin : Stage -> EncodingMode -> Result StageData.
Variable run_guppy_from_stage : StageData -> RunOptions -> bool.

Definition get_input_encoding (args : Namespace) : M EncodingMode :=
  if textual args then ret TEXTUAL
  else if bitcode args then ret BITCODE
  else
    let input_encoding : option EncodingMode :=
      match input args with
      | Some p => from_file p (input_stage args)
      | None => Some TEXTUAL
      end in
    match input_encoding with
    | None =>
        let input_encoding := BITCODE in
        (emit (LogInfo DETECT_MSG [input_encoding]) ;; ret input_encoding)%py
    | Some input_encoding => ret input_encoding
    end.

(** [parse_args], from the namespace [ns] that argparse returns *)
Definition parse_args (ns : Namespace) : M Namespace :=
  (let args := set_input_stage ns (get_input_state ns) in
   enc <- get_input_encoding args ;
   let args := set_input_encoding args enc in
   validate_args args ;;
   ret args)%py.

Definition StageData_from_path (stage : Stage) (path : Pathlib.Path)
    (encoding : EncodingMode) : M StageData :=
  ([ReadPath stage path encoding], from_path stage path encoding).

Definition StageData_from_stdin (stage : Stage) (encoding : EncodingMode)
  : M StageData :=
  ([ReadStdin stage encoding], from_stdin stage encoding).

Definition run_options (args : Namespace) : RunOptions :=
  {| hugr_out := store_hugr args;
     hugr_mlir_out := store_hugr_mlir args;
     lowered_mlir_out := store_llvm_mlir args;
     llvm_out := store_llvm args;
     obj_out := store_obj args;
     bin_out := store_bin args;
     opt_no_run := no_run args;
     opt_module_name := module_name args |}.

Definition call_run_guppy_from_stage (stage_data : StageData)
    (opts : RunOptions) : M bool :=
  ([RunPipeline opts], Return (run_guppy_from_stage stage_data opts)).

Definition main (ns : Namespace) : M unit :=
  (args <- parse_args ns ;
   (if verbose args then emit BasicConfigInfo else ret tt) ;;
   stage_data <-
     match input args with
     | Some p =>
         if Pathlib.truthy (Some p)
         then StageData_from_path (input_stage args) p (input_encoding args)
         else StageData_from_stdin (input_stage args) (input_encoding args)
     | None => StageData_from_stdin (input_stage args) (input_encoding args)
     end ;
   success <- call_run_guppy_from_stage stage_data (run_options args) ;
   if negb success then raise (SystemExit 1) else ret tt)%py.

End Collaborators.

(** The status with which the interpreter ends: 0 when [main] returns,
    the code of a [SystemExit], 1 after any other uncaught exception. *)
Definition exit_code (r : Result unit) : Z :=
  match r with
  | Return _ => 0
  | Raise (SystemExit code) => code
  | Raise _ => 1
  end.

End Cli.

(** ** Fixtures for closed statements

    A launcher under which every command succeeds, one under which no binary
    is found, one under which the binary fails with the given error stream,
    and a decoder. *)
Definition spawn_ok : list string -> LlvmCompiler.ProcOutcome :=
  fun _ => LlvmCompiler.Exited 0 [] [].
Definition spawn_missing : list string -> LlvmCompiler.ProcOutcome :=
  fun _ => LlvmCompiler.ExecNotFound.
Definition spawn_fails (err : Py.bytes) : list string -> LlvmCompiler.ProcOutcome :=
  fun _ => LlvmCompiler.Exited 1 [] err.
Definition latin1 : Py.bytes -> string := string_of_list_byte.
Definition env_override : gmap string string :=
  <["LLC" := "/opt/toolchain/bin/llc-17"]> ∅.

(** A namespace as argparse fills it: the input, the stage flags, the
    encoding flags and the store options as given, everything else at its
    default. *)
Definition namespace_of (inp : option Pathlib.Path)
    (f_hugr f_hugr_mlir f_llvm_mlir f_llvm f_bitcode f_textual : bool)
    (s_hugr s_hugr_mlir s_llvm_mlir s_llvm s_obj s_bin : option Pathlib.Path)
  : Cli.Namespace :=
  {| Cli.verbose := false; Cli.module_name := None; Cli.input := inp;
     Cli.hugr := f_hugr; Cli.hugr_mlir := f_hugr_mlir;
     Cli.llvm_mlir := f_llvm_mlir; Cli.llvm := f_llvm;
     Cli.bitcode := f_bitcode; Cli.textual := f_textual;
     Cli.store_hugr := s_hugr; Cli.store_hugr_mlir := s_hugr_mlir;
     Cli.store_llvm_mlir := s_llvm_mlir; Cli.store_llvm := s_llvm;
     Cli.store_obj := s_obj; Cli.store_bin := s_bin;
     Cli.output := None; Cli.no_run := false;
     Cli.input_stage := GUPPY; Cli.input_encoding := BITCODE |}.

(** [main.py] with no flag; [main.ll --llvm --store-hugr out.hugr];
    [main.ll --llvm --store-obj out.o]; [main.xyz --bitcode];
    [main.xyz --textual]; [main.xyz]; no input at all. *)
Definition ns_plain : Cli.Namespace :=
  namespace_of (Some (Pathlib.of_str "main.py")) false false false false false false
               None None None None None None.
Definition ns_llvm_store_hugr : Cli.Namespace :=
  namespace_of (Some (Pathlib.of_str "main.ll")) false false false true false false
               (Some (Pathlib.of_str "out.hugr")) None None None None None.
Definition ns_llvm_store_obj : Cli.Namespace :=
  namespace_of (Some (Pathlib.of_str "main.ll")) false false false true false false
               None None None None (Some (Pathlib.of_str "out.o")) None.
Definition ns_bitcode : Cli.Namespace :=
  namespace_of (Some (Pathlib.of_str "main.xyz")) false false false false true false
               None None None None None None.
Definition ns_textual : Cli.Namespace :=
  namespace_of (Some (Pathlib.of_str "main.xyz")) false false false false false true
               None None None None None None.
Definition ns_unknown : Cli.Namespace :=
  namespace_of (Some (Pathlib.of_str "main.xyz")) false false false false false false
               None None None None None None.
Definition ns_stdin : Cli.Namespace :=
  namespace_of None false false false false false false
               None None None None None None.

(** Collaborators: no extension is known; every read succeeds; the
    pipeline reports the given outcome. *)
Definition from_file_unknown : Pathlib.Path -> Stage -> option EncodingMode :=
  fun _ _ => None.
Definition read_path_ok : Stage -> Pathlib.Path -> EncodingMode -> Result unit :=
  fun _ _ _ => Return tt.
Definition read_stdin_ok : Stage -> EncodingMode -> Result unit :=
  fun _ _ => Return tt.
Definition pipeline_reports (success : bool) : unit -> RunOptions -> bool :=
  fun _ _ => success.

(** ** Namespaces that differ in one argparse field

    [with_output args o] is [args] with the value of [-o/--output] replaced,
    [with_verbose args b] is [args] with the value of [-v/--verbose]
    replaced. *)
Definition with_output (args : Cli.Namespace) (o : option Pathlib.Path)
  : Cli.Namespace :=
  {| Cli.verbose := Cli.verbose args; Cli.module_name := Cli.module_name args;
     Cli.input := Cli.input args; Cli.hugr := Cli.hugr args;
     Cli.hugr_mlir := Cli.hugr_mlir args; Cli.llvm_mlir := Cli.llvm_mlir args;
     Cli.llvm := Cli.llvm args; Cli.bitcode := Cli.bitcode args;
     Cli.textual := Cli.textual args; Cli.store_hugr := Cli.store_hugr args;
     Cli.store_hugr_mlir := Cli.store_hugr_mlir args;
     Cli.store_llvm_mlir := Cli.store_llvm_mlir args;
     Cli.store_llvm := Cli.store_llvm args; Cli.store_obj := Cli.store_obj args;
     Cli.store_bin := Cli.store_bin args; Cli.output := o;
     Cli.no_run := Cli.no_run args; Cli.input_stage := Cli.input_stage args;
     Cli.input_encoding := Cli.input_encoding args |}.

Definition with_verbose (args : Cli.Namespace) (b : bool) : Cli.Namespace :=
  {| Cli.verbose := b; Cli.module_name := Cli.module_name args;
     Cli.input := Cli.input args; Cli.hugr := Cli.hugr args;
     Cli.hugr_mlir := Cli.hugr_mlir args; Cli.llvm_mlir := Cli.llvm_mlir args;
     Cli.llvm := Cli.llvm args; Cli.bitcode := Cli.bitcode args;
     Cli.textual := Cli.textual args; Cli.store_hugr := Cli.store_hugr args;
     Cli.store_hugr_mlir := Cli.store_hugr_mlir args;
     Cli.store_llvm_mlir := Cli.store_llvm_mlir args;
     Cli.store_llvm := Cli.store_llvm args; Cli.store_obj := Cli.store_obj args;
     Cli.store_bin := Cli.store_bin args; Cli.output := Cli.output args;
     Cli.no_run := Cli.no_run args; Cli.input_stage := Cli.input_stage args;
     Cli.input_encoding := Cli.input_encoding args |}.

Definition is_basic_config (ev : Event) : bool :=
  match ev with BasicConfigInfo => true | _ => false end.


(** More fixtures: [main.ll --llvm --store-hugr-mlir a.mlir --store-llvm
    b.ll]; an environment with [LLC] and [PATH]; a reader that fails with
    errno 2; a table that knows [main.py] at the GUPPY stage only; a launcher
    that fails with errno 13; [main.py] with every store option. *)
Definition ns_llvm_two_stores : Cli.Namespace :=
  namespace_of (Some (Pathlib.of_str "main.ll")) false false false true false false
               None (Some (Pathlib.of_str "a.mlir")) None
               (Some (Pathlib.of_str "b.ll")) None None.
Definition env_override_path : gmap string string :=
  <["PATH" := "/usr/bin"]> env_override.
Definition from_file_py : Pathlib.Path -> Stage -> option EncodingMode :=
  fun p stage =>
    match stage with
    | GUPPY => if bool_decide (p = Pathlib.of_str "main.py") then Some TEXTUAL else None
    | _ => None
    end.
Definition spawn_denied : list string -> LlvmCompiler.ProcOutcome :=
  fun _ => LlvmCompiler.ExecFailed 13.
Definition ns_guppy_all_stores : Cli.Namespace :=
  namespace_of (Some (Pathlib.of_str "main.py")) false false false false false false
               (Some (Pathlib.of_str "a.hugr")) (Some (Pathlib.of_str "a.mlir"))
               (Some (Pathlib.of_str "b.mlir")) (Some (Pathlib.of_str "a.ll"))
               (Some (Pathlib.of_str "a.o")) (Some (Pathlib.of_str "a.out")).

(** * Properties *)

(** ** The Python model on concrete values *)

Example path_of_empty : Pathlib.str (Pathlib.of_str "") = ".".
Proof. reflexivity. Qed.

Example path_normalised :
  Pathlib.str (Pathlib.of_str "/opt//llvm/./bin/llc") = "/opt/llvm/bin/llc".
Proof. reflexivity. Qed.

Example bytes_repr_double_quoted :
  Py.bytes_repr (list_byte_of_string "can't open")
  = "b" +:+ String (ascii_of_N Py.DQUOTE) "can't open"
        +:+ String (ascii_of_N Py.DQUOTE) EmptyString.
Proof. reflexivity. Qed.

Example bytes_repr_escapes :
  Py.bytes_repr [x09; x5c; xc3; xa9; x41] = "b'\t\\\xc3\xa9A'".
Proof. vm_compute. reflexivity. Qed.

Example bytes_splitlines_breaks :
  Py.bytes_splitlines (list_byte_of_string "ab") = [list_byte_of_string "ab"]
  /\ Py.bytes_splitlines [x61; x0a; x0a; x62; x0d; x0a] = [[x61]; []; [x62]]
  /\ Py.bytes_splitlines [] = [].
Proof. repeat split; reflexivity. Qed.

Example stage_order : Stage_ge LLVM HUGR = true /\ Stage_ge LLVM OBJECT = false.
Proof. split; reflexivity. Qed.

(** ** The effect monad *)

Lemma bind_ret_l {A B} (a : A) (k : A -> M B) : bind (ret a) k = k a.
Proof. unfold bind, ret. destruct (k a) as [t r]. reflexivity. Qed.

Lemma bind_raise {A B} (t : list Event) (e : Exception) (k : A -> M B) :
  bind (t, Raise e) k = (t, Raise e).
Proof. reflexivity. Qed.

Lemma bind_return {A B} (t : list Event) (a : A) (k : A -> M B) :
  bind (t, Return a) k = (t ++ trace (k a), result (k a)).
Proof. unfold bind, trace, result. destruct (k a). reflexivity. Qed.

(** ** llvm_compiler.py *)

Section LlvmCompilerFacts.

Import LlvmCompiler.

Variable environ : gmap string string.
Variable spawn : list string -> ProcOutcome.
Variable decode : Py.bytes -> string.

Lemma process_stage_bitcode input_path input_encoding output_path temp_file module_name :
  process_stage environ spawn decode input_path input_encoding output_path
                BITCODE temp_file module_name
  = ([LogInfo ("Executing command: '"
               +:+ Py.join " " (command_line environ input_path output_path) +:+ "'") [];
      Spawn (command_line environ input_path output_path) true true false],
     match spawn (command_line environ input_path output_path) with
     | ExecNotFound => Raise LlcNotFoundError_init
     | ExecFailed errno => Raise (OSError errno)
     | Exited status out err =>
         if (status =? 0)%Z
         then Return (match output_path with Some p => p | None => DEFAULT_OBJ end)
         else Raise (LlcError_init
                       {| returncode := status;
                          cmd := command_line environ input_path output_path;
                          output := Py.Bytes out; stderr := Py.Bytes err |})
     end).
Proof.
  unfold process_stage, subprocess_run, command_line.
  destruct output_path as [p|]; cbn [Pathlib.truthy negb decide bool_decide];
    rewrite decide_False by discriminate; cbn -[Py.join Pathlib.str _get_compiler];
    destruct (spawn _) as [| errno | status out err]; try reflexivity;
    destruct (status =? 0)%Z; reflexivity.
Qed.

(** C1: with a textual output encoding the call raises the
    unsupported-encoding error, which carries the OBJECT stage and the
    requested encoding; the trace of the call is empty, so no process is
    spawned (and nothing is logged). *)
Theorem process_stage_textual_unsupported
    input_path input_encoding output_path temp_file module_name :
  process_stage environ spawn decode input_path input_encoding output_path
                TEXTUAL temp_file module_name
  = ([], Raise (UnsupportedEncodingError OBJECT TEXTUAL))
  /\ spawned (process_stage environ spawn decode input_path input_encoding
                            output_path TEXTUAL temp_file module_name) = [].
Proof. split; reflexivity. Qed.

(** C9: [input_encoding], [temp_file] and [module_name] have no influence:
    two calls that differ only in them have the same trace (log line and
    spawned command) and the same result (returned path or exception). *)
Theorem process_stage_discards_arguments
    input_path output_path output_encoding
    (input_encoding1 input_encoding2 : EncodingMode)
    (temp_file1 temp_file2 : bool) (module_name1 module_name2 : option string) :
  process_stage environ spawn decode input_path input_encoding1 output_path
                output_encoding temp_file1 module_name1
  = process_stage environ spawn decode input_path input_encoding2 output_path
                  output_encoding temp_file2 module_name2.
Proof. reflexivity. Qed.

End LlvmCompilerFacts.

Section LlvmCompilerOutcomes.

Import LlvmCompiler.

Variable environ : gmap string string.
Variable spawn : list string -> ProcOutcome.
Variable decode : Py.bytes -> string.

Lemma spawned_bitcode input_path input_encoding output_path temp_file module_name :
  spawned (process_stage environ spawn decode input_path input_encoding
                         output_path BITCODE temp_file module_name)
  = [command_line environ input_path output_path].
Proof. rewrite process_stage_bitcode. reflexivity. Qed.

Lemma spawned_inv input_path input_encoding output_path output_encoding
    temp_file module_name argv :
  In argv (spawned (process_stage environ spawn decode input_path input_encoding
                                  output_path output_encoding temp_file module_name)) ->
  output_encoding = BITCODE /\ argv = command_line environ input_path output_path.
Proof.
  destruct output_encoding.
  - rewrite spawned_bitcode. intros [<- | []]. split; reflexivity.
  - intros [].
Qed.


(** C5, amended: when the spawned binary cannot be located the call
    raises [LlcNotFoundError], and its message names the fixed
    conventional name [llc]; with no override that is the binary the call
    looked for. *)
Theorem process_stage_llc_not_found
    input_path input_encoding output_path output_encoding temp_file module_name argv :
  In argv (spawned (process_stage environ spawn decode input_path input_encoding
                                  output_path output_encoding temp_file module_name)) ->
  spawn argv = ExecNotFound ->
  result (process_stage environ spawn decode input_path input_encoding
                        output_path output_encoding temp_file module_name)
  = Raise (LlcNotFoundError "Could not find 'llc' binary in your $PATH.")
  /\ issubclass cls_LlcNotFoundError cls_CompilerError = true
  /\ (environ !! "LLC" = None -> hd_error argv = Some "llc").
Proof.
  intros Hin Hspawn. apply spawned_inv in Hin as [-> ->].
  rewrite process_stage_bitcode, Hspawn. repeat split.
  intros Hnone. unfold command_line, _get_compiler, LLC_ENV. rewrite Hnone.
  reflexivity.
Qed.

(** What the call raises when the binary runs and exits with a status
    other than zero: the captured stream is a bytes object (it is spawned
    with text false), so the line that the message interpolates is a
    bytes object too. *)
Lemma process_stage_llc_failed
    input_path input_encoding output_path temp_file module_name status out err :
  spawn (command_line environ input_path output_path) = Exited status out err ->
  status <> 0%Z ->
  result (process_stage environ spawn decode input_path input_encoding
                        output_path BITCODE temp_file module_name)
  = Raise (LlcError ("An error occurred while calling 'llc':" +:+ NL
                     +:+ match Py.bytes_splitlines err with
                         | [] => EmptyString
                         | line :: _ => Py.bytes_repr line
                         end)).
Proof.
  intros Hspawn Hstatus. rewrite process_stage_bitcode, Hspawn.
  apply Z.eqb_neq in Hstatus. rewrite Hstatus.
  unfold LlcError_init, result. cbn [snd stderr Py.splitlines].
  destruct (Py.bytes_splitlines err); reflexivity.
Qed.

Lemma llc_errors_are_compiler_errors :
  issubclass cls_LlcError cls_CompilerError = true
  /\ issubclass cls_LlcNotFoundError cls_CompilerError = true
  /\ issubclass cls_LlcError cls_LlvmError = true.
Proof. repeat split; reflexivity. Qed.

(** C7, amended: a call that succeeds returns the path it was given, and
    the fixed relative path [a.o] when it was given [None]; that path is
    also the one named after [-o] in the spawned command. *)
Theorem process_stage_returned_path
    input_path input_encoding output_path output_encoding temp_file module_name t p :
  process_stage environ spawn decode input_path input_encoding
                output_path output_encoding temp_file module_name
  = (t, Return p) ->
  (forall q, output_path = Some q -> p = q)
  /\ (output_path = None -> p = DEFAULT_OBJ)
  /\ Pathlib.str DEFAULT_OBJ = "a.o" /\ Pathlib.root DEFAULT_OBJ = EmptyString
  /\ spawned (process_stage environ spawn decode input_path input_encoding
                            output_path output_encoding temp_file module_name)
     = [[Pathlib.str (fst (_get_compiler environ)); Pathlib.str input_path;
         "--filetype=obj"; "-o"; Pathlib.str p]].
Proof.
  destruct output_encoding; [| discriminate].
  intros H. rewrite spawned_bitcode. rewrite process_stage_bitcode in H.
  injection H as _ H.
  destruct (spawn _) as [| errno | status out err]; try discriminate.
  destruct (status =? 0)%Z; [| discriminate]. injection H as <-.
  unfold command_line. repeat split.
  - intros q ->. reflexivity.
  - intros ->. reflexivity.
Qed.

End LlvmCompilerOutcomes.


(** ** Closed statements about the object stage *)



(** C5, as stated, fails: with [LLC] naming [/opt/toolchain/bin/llc-17]
    the call looks for that binary, and when it is missing the message of
    the error names [llc] and holds neither the path nor its last
    component. *)
Lemma llc_not_found_message_omits_override :
  LlvmCompiler.process_stage env_override spawn_missing latin1
    (Pathlib.of_str "main.ll") TEXTUAL None BITCODE false None
  = ([LogInfo "Executing command: '/opt/toolchain/bin/llc-17 main.ll --filetype=obj -o a.o'" [];
      Spawn ["/opt/toolchain/bin/llc-17"; "main.ll"; "--filetype=obj"; "-o"; "a.o"]
            true true false],
     Raise (LlcNotFoundError "Could not find 'llc' binary in your $PATH."))
  /\ Py.contains "/opt/toolchain/bin/llc-17"
                 "Could not find 'llc' binary in your $PATH." = false
  /\ Py.contains "llc-17" "Could not find 'llc' binary in your $PATH." = false.
Proof. repeat split; vm_compute; reflexivity. Qed.

Lemma process_stage_llc_not_found_witness :
  result (LlvmCompiler.process_stage ∅ spawn_missing latin1
            (Pathlib.of_str "main.ll") TEXTUAL None BITCODE false None)
  = Raise (LlcNotFoundError "Could not find 'llc' binary in your $PATH.")
  /\ hd_error ["llc"; "main.ll"; "--filetype=obj"; "-o"; "a.o"] = Some "llc".
Proof.
  destruct (process_stage_llc_not_found ∅ spawn_missing latin1
              (Pathlib.of_str "main.ll") TEXTUAL None BITCODE false None
              ["llc"; "main.ll"; "--filetype=obj"; "-o"; "a.o"])
    as (Hres & _ & Hhd).
  - vm_compute. left. reflexivity.
  - reflexivity.
  - split; [exact Hres | apply Hhd; vm_compute; reflexivity].
Defined.

(** C7, as stated, fails: the path made from the empty string is a path
    object, hence true; it is kept, named after [-o] as a single dot, and
    returned, and it is not [a.o]. *)
Lemma process_stage_empty_path_returned :
  LlvmCompiler.process_stage ∅ spawn_ok latin1
    (Pathlib.of_str "main.ll") TEXTUAL (Some (Pathlib.of_str "")) BITCODE false None
  = ([LogInfo "Executing command: 'llc main.ll --filetype=obj -o .'" [];
      Spawn ["llc"; "main.ll"; "--filetype=obj"; "-o"; "."] true true false],
     Return (Pathlib.of_str ""))
  /\ Pathlib.of_str "" <> LlvmCompiler.DEFAULT_OBJ
  /\ Pathlib.str (Pathlib.of_str "") <> "a.o".
Proof. repeat split; try (vm_compute; reflexivity); vm_compute; discriminate. Qed.

Lemma process_stage_returned_path_witness :
  LlvmCompiler.process_stage ∅ spawn_ok latin1
    (Pathlib.of_str "main.ll") TEXTUAL None BITCODE false None
  = ([LogInfo "Executing command: 'llc main.ll --filetype=obj -o a.o'" [];
      Spawn ["llc"; "main.ll"; "--filetype=obj"; "-o"; "a.o"] true true false],
     Return (Pathlib.of_str "a.o"))
  /\ Pathlib.of_str "a.o" = LlvmCompiler.DEFAULT_OBJ.
Proof.
  assert (H : LlvmCompiler.process_stage ∅ spawn_ok latin1
                (Pathlib.of_str "main.ll") TEXTUAL None BITCODE false None
              = ([LogInfo "Executing command: 'llc main.ll --filetype=obj -o a.o'" [];
                  Spawn ["llc"; "main.ll"; "--filetype=obj"; "-o"; "a.o"] true true false],
                 Return (Pathlib.of_str "a.o"))).
  { vm_compute. reflexivity. }
  split; [exact H |].
  apply (process_stage_returned_path _ _ _ _ _ _ _ _ _ _ _ H). reflexivity.
Defined.

(** C4 on a failing run: [llc] exits with status 1 and two lines on its
    error stream.  The message of the [LlcError] ends with the bytes
    literal of the first line, quotes and prefix included, and so is not
    the heading followed by that line. *)
Theorem llc_error_message_is_bytes_repr :
  result (LlvmCompiler.process_stage ∅
            (spawn_fails (list_byte_of_string "llc: error: expected top-level entity"
                          ++ [x0a] ++ list_byte_of_string "define i32 @main("))
            latin1 (Pathlib.of_str "main.ll") TEXTUAL None BITCODE false None)
  = Raise (LlcError ("An error occurred while calling 'llc':" +:+ LlvmCompiler.NL
                     +:+ "b'llc: error: expected top-level entity'"))
  /\ "An error occurred while calling 'llc':" +:+ LlvmCompiler.NL
       +:+ "b'llc: error: expected top-level entity'"
     <> "An error occurred while calling 'llc':" +:+ LlvmCompiler.NL
          +:+ "llc: error: expected top-level entity"
  /\ issubclass cls_LlcError cls_CompilerError = true.
Proof.
  split; [vm_compute; reflexivity | split; [vm_compute; discriminate | reflexivity]].
Qed.

(** ** __main__.py *)

Section ValidationLoop.

Import Cli.

Lemma offends_test args store stage :
  is_not_None store && Stage_ge (input_stage args) stage = true
  <-> offends args (store, stage).
Proof.
  unfold offends, Stage_ge. cbn [fst snd].
  rewrite andb_true_iff, Z.leb_le. destruct store; cbn; intuition congruence.
Qed.

Lemma validate_loop_passes args pairs :
  Forall (fun pair => ~ offends args pair) pairs ->
  validate_loop args pairs = ([], Return tt).
Proof.
  induction 1 as [| [store stage] rest Hhead _ IH]; [reflexivity |].
  cbn [validate_loop].
  destruct (is_not_None store && Stage_ge (input_stage args) stage) eqn:E.
  - apply offends_test in E. contradiction.
  - rewrite bind_ret_l. exact IH.
Qed.

Lemma validate_loop_rejects args pairs :
  Exists (offends args) pairs ->
  exists store stage,
    In (store, stage) pairs /\ offends args (store, stage)
    /\ validate_loop args pairs
       = ([ParserError (cannot_produce stage)], Raise (SystemExit 2)).
Proof.
  induction pairs as [| [store stage] rest IH]; intros Hex.
  - inversion Hex.
  - cbn [validate_loop].
    destruct (is_not_None store && Stage_ge (input_stage args) stage) eqn:E.
    + exists store, stage. split; [left; reflexivity |].
      split; [apply offends_test; exact E | reflexivity].
    + assert (Hrest : Exists (offends args) rest).
      { inversion Hex as [? ? Hhead | ? ? Htail]; subst; [| exact Htail].
        apply offends_test in Hhead. congruence. }
      destruct (IH Hrest) as (store' & stage' & Hin & Hoff & Hrun).
      exists store', stage'. split; [right; exact Hin |].
      split; [exact Hoff |]. rewrite bind_ret_l. exact Hrun.
Qed.

Lemma log_is_not_work (log : list Event) :
  Forall (fun ev => is_log ev = true) log ->
  Forall (fun ev => is_work ev = false) log.
Proof.
  intros Hlog. eapply Forall_impl; [exact Hlog |].
  intros ev; destruct ev; cbn; congruence.
Qed.

Lemma validate_loop_messages args pairs message :
  In (ParserError message) (trace (validate_loop args pairs)) ->
  exists store stage,
    In (store, stage) pairs /\ offends args (store, stage)
    /\ message = cannot_produce stage.
Proof.
  induction pairs as [| [store stage] rest IH]; cbn [validate_loop].
  - intros [].
  - destruct (is_not_None store && Stage_ge (input_stage args) stage) eqn:E.
    + cbn. intros [Heq | []]. injection Heq as <-.
      exists store, stage. split; [left; reflexivity |].
      split; [apply offends_test; exact E | reflexivity].
    + rewrite bind_ret_l. intros Hin.
      destruct (IH Hin) as (store' & stage' & Hin' & Hoff & Hmsg).
      exists store', stage'. split; [right; exact Hin' | split; assumption].
Qed.

End ValidationLoop.

Section CliFacts.

Import Cli.

Variable from_file : Pathlib.Path -> Stage -> option EncodingMode.
Variable StageData : Type.
Variable from_path : Stage -> Pathlib.Path -> EncodingMode -> Result StageData.
Variable from_stdin : Stage -> EncodingMode -> Result StageData.
Variable run_guppy_from_stage : StageData -> RunOptions -> bool.

Lemma get_input_encoding_returns args :
  exists enc, result (get_input_encoding from_file args) = Return enc
              /\ Forall (fun ev => is_log ev = true)
                        (trace (get_input_encoding from_file args)).
Proof.
  unfold get_input_encoding.
  destruct (textual args); [eexists; split; [reflexivity | constructor] |].
  destruct (bitcode args); [eexists; split; [reflexivity | constructor] |].
  destruct (input args) as [p |].
  - destruct (from_file p (input_stage args)); eexists;
      (split; [reflexivity | repeat constructor]).
  - eexists; split; [reflexivity | constructor].
Qed.


Lemma store_requires_set_input_encoding args enc :
  store_requires (set_input_encoding args enc) = store_requires args.
Proof. reflexivity. Qed.

Lemma offends_set_input_encoding args enc pair :
  offends (set_input_encoding args enc) pair <-> offends args pair.
Proof. reflexivity. Qed.

(** The two attributes that [parse_args] writes are not read before:
    their value in the namespace that argparse returns is immaterial. *)
Lemma parse_args_overwrites ns st enc :
  parse_args from_file (set_input_encoding (set_input_stage ns st) enc)
  = parse_args from_file ns.
Proof. reflexivity. Qed.

(** C2: resolving the input encoding always returns an encoding and
    never raises.  A force-textual flag gives TEXTUAL and, on a parseable
    command line, a force-bitcode flag gives BITCODE, whatever the input
    and the stage; with neither flag, a file whose extension is not known
    gives BITCODE after one informational log record, and the standard
    input gives TEXTUAL. *)
Theorem get_input_encoding_total args :
  (exists enc, result (get_input_encoding from_file args) = Return enc)
  /\ (textual args = true ->
      get_input_encoding from_file args = ([], Return TEXTUAL))
  /\ (parseable args = true -> bitcode args = true ->
      get_input_encoding from_file args = ([], Return BITCODE))
  /\ (forall p, textual args = false -> bitcode args = false ->
        input args = Some p -> from_file p (input_stage args) = None ->
        get_input_encoding from_file args
        = ([LogInfo DETECT_MSG [BITCODE]], Return BITCODE))
  /\ (textual args = false -> bitcode args = false -> input args = None ->
      get_input_encoding from_file args = ([], Return TEXTUAL)).
Proof.
  split; [| split; [| split; [| split]]].
  - destruct (get_input_encoding_returns args) as (enc & Henc & _). eauto.
  - intros Ht. unfold get_input_encoding. rewrite Ht. reflexivity.
  - unfold parseable, count_true, get_input_encoding. intros Hp Hb.
    rewrite Hb in *. destruct (textual args); [| reflexivity].
    apply andb_true_iff in Hp as [_ Hp]. discriminate Hp.
  - intros p Ht Hb Hin Hnone. unfold get_input_encoding.
    rewrite Ht, Hb, Hin, Hnone. reflexivity.
  - intros Ht Hb Hin. unfold get_input_encoding. rewrite Ht, Hb, Hin. reflexivity.
Qed.

Lemma parse_args_run ns :
  exists log enc,
    get_input_encoding from_file (set_input_stage ns (get_input_state ns))
    = (log, Return enc)
    /\ Forall (fun ev => is_log ev = true) log
    /\ parse_args from_file ns
       = bind (log, Return tt)
              (fun _ => bind (validate_args
                                (set_input_encoding
                                   (set_input_stage ns (get_input_state ns)) enc))
                             (fun _ => ret (set_input_encoding
                                   (set_input_stage ns (get_input_state ns)) enc))).
Proof.
  destruct (get_input_encoding_returns (set_input_stage ns (get_input_state ns)))
    as (enc & Hres & Hlog).
  destruct (get_input_encoding from_file _) as [log r] eqn:E.
  cbn [result trace fst snd] in Hres, Hlog. subst r.
  exists log, enc. split; [reflexivity |]. split; [exact Hlog |].
  unfold parse_args. rewrite E. cbn [bind].
  destruct (validate_args _) as [t [a | e]]; reflexivity.
Qed.

Lemma cannot_produce_names stage :
  Py.contains (Stage_name stage) (cannot_produce stage) = true.
Proof. destruct stage; vm_compute; reflexivity. Qed.

Lemma store_requires_offender args :
  offends args (store_hugr args, HUGR)
  \/ offends args (store_hugr_mlir args, HUGR_MLIR)
  \/ offends args (store_llvm_mlir args, LOWERED_MLIR)
  \/ offends args (store_llvm args, LLVM)
  \/ offends args (store_obj args, OBJECT)
  \/ offends args (store_bin args, EXECUTABLE) ->
  Exists (offends args) (store_requires args).
Proof.
  unfold store_requires. rewrite !Exists_cons.
  intros [H | [H | [H | [H | [H | H]]]]]; tauto.
Qed.

(** C3: when one of the six store options is given and its stage (HUGR for
    [--store-hugr], HUGR_MLIR for [--store-hugr-mlir], LOWERED_MLIR for
    [--store-llvm-mlir], LLVM for [--store-llvm], OBJECT for [--store-obj],
    EXECUTABLE for [--store-bin]) is at or before the input stage,
    [validate_args] reports a usage error through the parser: one message,
    naming the stage of such an option, and exit status 2.  [main] then
    ends with that status, the message being the last event, and neither
    reads the input nor runs the pipeline nor spawns a process.  When none
    of the six is so, [validate_args] returns with no event. *)
Theorem validate_args_usage_error :
  (forall args,
     offends args (store_hugr args, HUGR)
     \/ offends args (store_hugr_mlir args, HUGR_MLIR)
     \/ offends args (store_llvm_mlir args, LOWERED_MLIR)
     \/ offends args (store_llvm args, LLVM)
     \/ offends args (store_obj args, OBJECT)
     \/ offends args (store_bin args, EXECUTABLE) ->
     exists store stage,
       In (store, stage)
          [(store_hugr args, HUGR); (store_hugr_mlir args, HUGR_MLIR);
           (store_llvm_mlir args, LOWERED_MLIR); (store_llvm args, LLVM);
           (store_obj args, OBJECT); (store_bin args, EXECUTABLE)]
       /\ offends args (store, stage)
       /\ Py.contains (Stage_name stage) (cannot_produce stage) = true
       /\ validate_args args
          = ([ParserError (cannot_produce stage)], Raise (SystemExit 2)))
  /\ (forall args,
        ~ offends args (store_hugr args, HUGR) ->
        ~ offends args (store_hugr_mlir args, HUGR_MLIR) ->
        ~ offends args (store_llvm_mlir args, LOWERED_MLIR) ->
        ~ offends args (store_llvm args, LLVM) ->
        ~ offends args (store_obj args, OBJECT) ->
        ~ offends args (store_bin args, EXECUTABLE) ->
        validate_args args = ([], Return tt))
  /\ (forall ns,
        offends (set_input_stage ns (get_input_state ns)) (store_hugr ns, HUGR)
        \/ offends (set_input_stage ns (get_input_state ns))
                   (store_hugr_mlir ns, HUGR_MLIR)
        \/ offends (set_input_stage ns (get_input_state ns))
                   (store_llvm_mlir ns, LOWERED_MLIR)
        \/ offends (set_input_stage ns (get_input_state ns)) (store_llvm ns, LLVM)
        \/ offends (set_input_stage ns (get_input_state ns)) (store_obj ns, OBJECT)
        \/ offends (set_input_stage ns (get_input_state ns))
                   (store_bin ns, EXECUTABLE) ->
        exists store stage log,
          In (store, stage)
             [(store_hugr ns, HUGR); (store_hugr_mlir ns, HUGR_MLIR);
              (store_llvm_mlir ns, LOWERED_MLIR); (store_llvm ns, LLVM);
              (store_obj ns, OBJECT); (store_bin ns, EXECUTABLE)]
          /\ offends (set_input_stage ns (get_input_state ns)) (store, stage)
          /\ main from_file StageData from_path from_stdin run_guppy_from_stage ns
             = (log ++ [ParserError (cannot_produce stage)], Raise (SystemExit 2))
          /\ Forall (fun ev => is_work ev = false)
                    (log ++ [ParserError (cannot_produce stage)])
          /\ exit_code (Raise (SystemExit 2)) = 2%Z).
Proof.
  split; [| split].
  - intros args Hbad. apply store_requires_offender in Hbad.
    destruct (validate_loop_rejects args _ Hbad)
      as (store & stage & Hin & Hoff & Hrun).
    exists store, stage. auto using cannot_produce_names.
  - intros args H1 H2 H3 H4 H5 H6. apply validate_loop_passes.
    unfold store_requires. repeat constructor; assumption.
  - intros ns Hbad.
    apply (store_requires_offender (set_input_stage ns (get_input_state ns))) in Hbad.
    destruct (parse_args_run ns) as (log & enc & _ & Hlog & Hparse).
    destruct (validate_loop_rejects
                (set_input_encoding (set_input_stage ns (get_input_state ns)) enc)
                (store_requires ns) Hbad)
      as (store & stage & Hin & Hoff & Hrun).
    exists store, stage, log. split; [exact Hin |]. split; [exact Hoff |].
    split; [| split; [| reflexivity]].
    + unfold main. rewrite Hparse. unfold validate_args.
      rewrite store_requires_set_input_encoding. change (store_requires _)
        with (store_requires ns). rewrite Hrun. reflexivity.
    + apply Forall_app. split; [apply log_is_not_work; exact Hlog | repeat constructor].
Qed.

(** C8: once the arguments are accepted and the input artifact is read,
    the process ends with status 0 when [run_guppy_from_stage] reports
    success and with status 1 when it reports failure. *)
Theorem main_exit_code ns log args stage_data :
  parse_args from_file ns = (log, Return args) ->
  match input args with
  | Some p => from_path (input_stage args) p (input_encoding args)
  | None => from_stdin (input_stage args) (input_encoding args)
  end = Return stage_data ->
  In (RunPipeline (run_options args))
     (trace (main from_file StageData from_path from_stdin run_guppy_from_stage ns))
  /\ (run_guppy_from_stage stage_data (run_options args) = true ->
      exit_code (result (main from_file StageData from_path from_stdin
                              run_guppy_from_stage ns)) = 0%Z)
  /\ (run_guppy_from_stage stage_data (run_options args) = false ->
      exit_code (result (main from_file StageData from_path from_stdin
                              run_guppy_from_stage ns)) = 1%Z).
Proof.
  intros Hparse Hread. unfold main. rewrite Hparse. rewrite bind_return.
  assert (Hload :
    match input args with
    | Some p =>
        if Pathlib.truthy (Some p)
        then StageData_from_path StageData from_path (input_stage args) p (input_encoding args)
        else StageData_from_stdin StageData from_stdin (input_stage args) (input_encoding args)
    | None => StageData_from_stdin StageData from_stdin (input_stage args) (input_encoding args)
    end
    = (match input args with
       | Some p => [ReadPath (input_stage args) p (input_encoding args)]
       | None => [ReadStdin (input_stage args) (input_encoding args)]
       end, Return stage_data)).
  { unfold StageData_from_path, StageData_from_stdin.
    destruct (input args); cbn [Pathlib.truthy]; rewrite Hread; reflexivity. }
  rewrite Hload. unfold call_run_guppy_from_stage.
  destruct (verbose args); cbn;
    destruct (run_guppy_from_stage stage_data (run_options args)); cbn;
    (split; [rewrite in_app_iff; destruct (input args); cbn; tauto
            | split; congruence]).
Qed.

(** C10: the input stage is GUPPY, HUGR, HUGR_MLIR, LOWERED_MLIR or LLVM,
    never OBJECT or EXECUTABLE, and GUPPY when no stage flag is given.
    Hence the two iterations of the validation loop for [--store-obj] and
    [--store-bin] never report, and no usage error that [parse_args]
    reports names OBJECT or EXECUTABLE. *)
Theorem input_stage_before_object ns :
  In (get_input_state ns) [GUPPY; HUGR; HUGR_MLIR; LOWERED_MLIR; LLVM]
  /\ get_input_state ns <> OBJECT /\ get_input_state ns <> EXECUTABLE
  /\ (hugr ns = false -> hugr_mlir ns = false -> llvm_mlir ns = false ->
      llvm ns = false -> get_input_state ns = GUPPY)
  /\ Stage_ge (get_input_state ns) OBJECT = false
  /\ Stage_ge (get_input_state ns) EXECUTABLE = false
  /\ validate_loop (set_input_stage ns (get_input_state ns))
                   [(store_obj ns, OBJECT); (store_bin ns, EXECUTABLE)]
     = ([], Return tt)
  /\ (forall message,
        In (ParserError message) (trace (parse_args from_file ns)) ->
        message <> cannot_produce OBJECT /\ message <> cannot_produce EXECUTABLE).
Proof.
  assert (Hin : In (get_input_state ns) [GUPPY; HUGR; HUGR_MLIR; LOWERED_MLIR; LLVM]).
  { unfold get_input_state.
    destruct (hugr ns), (hugr_mlir ns), (llvm_mlir ns), (llvm ns); cbn; tauto. }
  assert (Hobj : Stage_ge (get_input_state ns) OBJECT = false)
    by (cbn in Hin; destruct Hin as [<- | [<- | [<- | [<- | [<- | []]]]]]; reflexivity).
  assert (Hexe : Stage_ge (get_input_state ns) EXECUTABLE = false)
    by (cbn in Hin; destruct Hin as [<- | [<- | [<- | [<- | [<- | []]]]]]; reflexivity).
  repeat match goal with |- _ /\ _ => split end; try assumption.
  - intros E. rewrite E in Hobj. discriminate.
  - intros E. rewrite E in Hexe. discriminate.
  - unfold get_input_state. intros -> -> -> ->. reflexivity.
  - cbn [validate_loop set_input_stage input_stage]. rewrite Hobj, Hexe.
    rewrite !andb_false_r. reflexivity.
  - intros message Hmsg.
    destruct (parse_args_run ns) as (log & enc & Henc & Hlog & Hparse).
    rewrite Hparse in Hmsg. clear Hparse.
    assert (Hval : In (ParserError message)
                      (trace (validate_args
                                (set_input_encoding
                                   (set_input_stage ns (get_input_state ns)) enc)))).
    { destruct (validate_args _) as [t [[] | e]]; cbn in Hmsg |- *;
        rewrite ?app_nil_r in Hmsg; apply in_app_or in Hmsg as [Hmsg | Hmsg];
        try exact Hmsg; rewrite List.Forall_forall in Hlog; apply Hlog in Hmsg;
        discriminate Hmsg. }
    apply validate_loop_messages in Hval as (store & stage & _ & [_ Hle] & ->).
    cbn [fst snd set_input_encoding set_input_stage input_stage] in Hle.
    unfold Stage_ge in Hobj, Hexe. apply Z.leb_gt in Hobj, Hexe.
    cbn [Stage_value] in Hobj, Hexe.
    split; intros Heq; destruct stage; try (vm_compute in Heq; discriminate Heq);
      cbn [Stage_value] in Hle; lia.
Qed.

End CliFacts.

(** ** Closed statements about the command line *)

Lemma get_input_encoding_total_witness :
  Cli.get_input_encoding from_file_unknown ns_textual = ([], Return TEXTUAL)
  /\ Cli.get_input_encoding from_file_unknown ns_bitcode = ([], Return BITCODE)
  /\ Cli.get_input_encoding from_file_unknown ns_unknown
     = ([LogInfo Cli.DETECT_MSG [BITCODE]], Return BITCODE)
  /\ Cli.get_input_encoding from_file_unknown ns_stdin = ([], Return TEXTUAL).
Proof.
  pose proof (get_input_encoding_total from_file_unknown ns_textual) as (_ & Htext & _).
  pose proof (get_input_encoding_total from_file_unknown ns_bitcode) as (_ & _ & Hbit & _).
  pose proof (get_input_encoding_total from_file_unknown ns_unknown) as (_ & _ & _ & Hfile & _).
  pose proof (get_input_encoding_total from_file_unknown ns_stdin) as (_ & _ & _ & _ & Hstdin).
  split; [| split; [| split]].
  - apply Htext. reflexivity.
  - apply Hbit; reflexivity.
  - apply (Hfile (Pathlib.of_str "main.xyz")); reflexivity.
  - apply Hstdin; reflexivity.
Defined.

Lemma validate_args_usage_error_witness :
  Cli.validate_args (Cli.set_input_stage ns_llvm_store_hugr LLVM)
  = ([ParserError "Cannot produce a HUGR artifact from the given input."],
     Raise (SystemExit 2))
  /\ Cli.validate_args (Cli.set_input_stage ns_llvm_store_obj LLVM) = ([], Return tt)
  /\ exists stage log,
       Cli.main from_file_unknown unit read_path_ok read_stdin_ok
                (pipeline_reports true) ns_llvm_store_hugr
       = (log ++ [ParserError (Cli.cannot_produce stage)], Raise (SystemExit 2))
       /\ Forall (fun ev => is_work ev = false)
                 (log ++ [ParserError (Cli.cannot_produce stage)]).
Proof.
  pose proof (validate_args_usage_error from_file_unknown unit read_path_ok
                read_stdin_ok (pipeline_reports true)) as (Hrej & Hpass & Hmain).
  assert (Hhugr : Cli.offends (Cli.set_input_stage ns_llvm_store_hugr LLVM)
                              (Some (Pathlib.of_str "out.hugr"), HUGR)).
  { split; [discriminate | vm_compute; discriminate]. }
  split; [| split].
  - destruct (Hrej (Cli.set_input_stage ns_llvm_store_hugr LLVM))
      as (store & stage & _ & _ & _ & Hrun).
    + left. exact Hhugr.
    + vm_compute. reflexivity.
  - apply Hpass; intros [Hset Hle]; cbn in Hset, Hle; solve [congruence | lia].
  - destruct (Hmain ns_llvm_store_hugr)
      as (store & stage & log & _ & _ & Hrun & Hquiet & _).
    + left. exact Hhugr.
    + exists stage, log. split; [exact Hrun | exact Hquiet].
Defined.

Lemma main_exit_code_witness :
  Cli.exit_code (result (Cli.main from_file_unknown unit read_path_ok read_stdin_ok
                              (pipeline_reports true) ns_plain)) = 0%Z
  /\ Cli.exit_code (result (Cli.main from_file_unknown unit read_path_ok read_stdin_ok
                                 (pipeline_reports false) ns_plain)) = 1%Z.
Proof.
  pose proof (main_exit_code from_file_unknown unit read_path_ok read_stdin_ok
                (pipeline_reports true) ns_plain
                [LogInfo Cli.DETECT_MSG [BITCODE]]
                (Cli.set_input_encoding (Cli.set_input_stage ns_plain GUPPY) BITCODE) tt
                eq_refl eq_refl) as (_ & Hsuccess & _).
  pose proof (main_exit_code from_file_unknown unit read_path_ok read_stdin_ok
                (pipeline_reports false) ns_plain
                [LogInfo Cli.DETECT_MSG [BITCODE]]
                (Cli.set_input_encoding (Cli.set_input_stage ns_plain GUPPY) BITCODE) tt
                eq_refl eq_refl) as (_ & _ & Hfailure).
  split; [apply Hsuccess | apply Hfailure]; reflexivity.
Defined.

Lemma input_stage_before_object_witness :
  Cli.get_input_state ns_plain = GUPPY
  /\ Cli.get_input_state ns_llvm_store_obj = LLVM
  /\ Cli.cannot_produce HUGR <> Cli.cannot_produce OBJECT.
Proof.
  pose proof (input_stage_before_object from_file_unknown ns_plain)
    as (_ & _ & _ & Hdefault & _).
  pose proof (input_stage_before_object from_file_unknown ns_llvm_store_hugr)
    as (_ & _ & _ & _ & _ & _ & _ & Hmsg).
  split; [| split].
  - apply Hdefault; reflexivity.
  - reflexivity.
  - apply (Hmsg (Cli.cannot_produce HUGR)).
    vm_compute. right. left. reflexivity.
Defined.

(** * Further properties of the object stage *)

Section ObjectStageRuns.

Import LlvmCompiler.

Variable environ : gmap string string.
Variable spawn : list string -> ProcOutcome.
Variable decode : Py.bytes -> string.


(** X2: a call returns a path exactly when the output encoding is BITCODE
    and the spawned command exits with status 0. *)
Theorem process_stage_succeeds_iff
    input_path input_encoding output_path output_encoding temp_file module_name :
  (exists p, result (process_stage environ spawn decode input_path input_encoding
                                   output_path output_encoding temp_file module_name)
             = Return p)
  <-> (output_encoding = BITCODE
       /\ exists out err,
            spawn (command_line environ input_path output_path) = Exited 0 out err).
Proof.
  destruct output_encoding.
  - rewrite process_stage_bitcode. unfold result. cbn [snd]. split.
    + intros [p Hp]. split; [reflexivity |].
      destruct (spawn _) as [| errno | status out err]; try discriminate.
      destruct (status =? 0)%Z eqn:E; [| discriminate].
      apply Z.eqb_eq in E. subst status. eauto.
    + intros [_ (out & err & ->)]. cbn. eauto.
  - split; [intros [p Hp]; discriminate Hp | intros [H _]; discriminate H].
Qed.

(** X3: a launch that fails with an [OSError] other than a missing
    binary (a binary that may not be executed, say) is not translated: the
    call logs and spawns as usual and raises that [OSError] as it is, which
    is outside the [CompilerError] family that the other failures of the
    call belong to. *)
Theorem process_stage_os_error_propagates
    input_path input_encoding output_path temp_file module_name errno :
  spawn (command_line environ input_path output_path) = ExecFailed errno ->
  process_stage environ spawn decode input_path input_encoding output_path
                BITCODE temp_file module_name
  = ([LogInfo ("Executing command: '"
               +:+ Py.join " " (command_line environ input_path output_path)
               +:+ "'") [];
      Spawn (command_line environ input_path output_path) true true false],
     Raise (OSError errno))
  /\ issubclass (class_of (OSError errno)) cls_CompilerError = false
  /\ issubclass (class_of LlcNotFoundError_init) cls_CompilerError = true.
Proof.
  intros Hspawn. rewrite process_stage_bitcode, Hspawn. repeat split.
Qed.

(** X4: the command depends on the environment through [LLC] only: two
    calls with the same arguments, in environments with the same entry for
    [LLC], log the same line and spawn the same argv, whatever the
    launchers do. *)
Theorem process_stage_command_only_llc
    (environ' : gmap string string) (spawn' : list string -> ProcOutcome)
    (decode' : Py.bytes -> string)
    input_path input_encoding output_path output_encoding temp_file module_name :
  environ' !! "LLC" = environ !! "LLC" ->
  trace (process_stage environ' spawn' decode' input_path input_encoding
                       output_path output_encoding temp_file module_name)
  = trace (process_stage environ spawn decode input_path input_encoding
                         output_path output_encoding temp_file module_name).
Proof.
  intros Henv. destruct output_encoding; [| reflexivity].
  rewrite !process_stage_bitcode. unfold command_line, _get_compiler, LLC_ENV.
  rewrite Henv. reflexivity.
Qed.

End ObjectStageRuns.

(** ** The line that [LlcError] reports *)

Lemma splitlines_go_run {A} (code : A -> N) (is_break : N -> bool)
    (line : list A) (rest acc : list A) (pending : bool) :
  Forall (fun c => is_break (code c) = false) line ->
  Py.splitlines_go code is_break acc pending (line ++ rest)
  = Py.splitlines_go code is_break (rev line ++ acc)
                     (pending || negb (bool_decide (line = []))) rest.
Proof.
  intros Hline. revert acc pending.
  induction Hline as [| c line Hc _ IH]; intros acc pending.
  - cbn. rewrite orb_false_r. reflexivity.
  - cbn [app Py.splitlines_go rev]. rewrite Hc, IH, <- app_assoc.
    cbn. rewrite !orb_true_r. reflexivity.
Qed.

Lemma bytes_splitlines_first_line (line rest : Py.bytes) (brk : byte) :
  Forall (fun c => Py.bytes_is_break (Byte.to_N c) = false) line ->
  Py.bytes_is_break (Byte.to_N brk) = true ->
  exists more, Py.bytes_splitlines (line ++ brk :: rest) = line :: more.
Proof.
  intros Hline Hbrk. unfold Py.bytes_splitlines.
  rewrite (splitlines_go_run _ _ line (brk :: rest) [] false Hline).
  rewrite app_nil_r. cbn [Py.splitlines_go]. rewrite Hbrk, rev_involutive.
  destruct (N.eqb (Byte.to_N brk) Py.CR); [| eauto].
  destruct rest as [| c rest]; [eauto |].
  destruct (N.eqb (Byte.to_N c) Py.LF); eauto.
Qed.

Lemma bytes_splitlines_single_line (line : Py.bytes) :
  line <> [] ->
  Forall (fun c => Py.bytes_is_break (Byte.to_N c) = false) line ->
  Py.bytes_splitlines line = [line].
Proof.
  intros Hne Hline. unfold Py.bytes_splitlines.
  rewrite <- (app_nil_r line) at 1.
  rewrite (splitlines_go_run _ _ line [] [] false Hline).
  rewrite app_nil_r. cbn. rewrite bool_decide_eq_false_2 by exact Hne.
  cbn. rewrite rev_involutive. reflexivity.
Qed.

Section ObjectStageFailures.

Import LlvmCompiler.

Variable environ : gmap string string.
Variable spawn : list string -> ProcOutcome.
Variable decode : Py.bytes -> string.

(** X5: only the first line of the error stream reaches the message.  When
    the command exits with a status other than zero and its error stream is
    a line with no CR or LF, then a CR or an LF, then anything, the message
    of the [LlcError] is the heading, a newline and the bytes literal of
    that line; what follows the line break has no influence. *)
Theorem llc_error_reports_first_line_only
    input_path input_encoding output_path temp_file module_name
    status out line brk rest :
  spawn (command_line environ input_path output_path)
  = Exited status out (line ++ brk :: rest) ->
  status <> 0%Z ->
  Forall (fun c => Py.bytes_is_break (Byte.to_N c) = false) line ->
  Py.bytes_is_break (Byte.to_N brk) = true ->
  result (process_stage environ spawn decode input_path input_encoding
                        output_path BITCODE temp_file module_name)
  = Raise (LlcError ("An error occurred while calling 'llc':" +:+ NL
                     +:+ Py.bytes_repr line)).
Proof.
  intros Hspawn Hstatus Hline Hbrk.
  rewrite (process_stage_llc_failed _ _ _ _ _ _ _ _ _ _ _ Hspawn Hstatus).
  destruct (bytes_splitlines_first_line line rest brk Hline Hbrk) as [more ->].
  reflexivity.
Qed.

(** X6: an error stream of one line with no line break at its end is
    reported whole: the message is the heading, a newline and the bytes
    literal of the stream. *)
Theorem llc_error_reports_unterminated_line
    input_path input_encoding output_path temp_file module_name status out line :
  spawn (command_line environ input_path output_path) = Exited status out line ->
  status <> 0%Z ->
  line <> [] ->
  Forall (fun c => Py.bytes_is_break (Byte.to_N c) = false) line ->
  result (process_stage environ spawn decode input_path input_encoding
                        output_path BITCODE temp_file module_name)
  = Raise (LlcError ("An error occurred while calling 'llc':" +:+ NL
                     +:+ Py.bytes_repr line)).
Proof.
  intros Hspawn Hstatus Hne Hline.
  rewrite (process_stage_llc_failed _ _ _ _ _ _ _ _ _ _ _ Hspawn Hstatus).
  rewrite (bytes_splitlines_single_line line Hne Hline). reflexivity.
Qed.

(** X7: with an empty error stream the message of the [LlcError] is the
    heading followed by a newline and nothing else, whatever the status
    (other than zero) and the captured standard output. *)
Theorem llc_error_empty_stream
    input_path input_encoding output_path temp_file module_name status out :
  spawn (command_line environ input_path output_path) = Exited status out [] ->
  status <> 0%Z ->
  result (process_stage environ spawn decode input_path input_encoding
                        output_path BITCODE temp_file module_name)
  = Raise (LlcError ("An error occurred while calling 'llc':" +:+ NL)).
Proof.
  intros Hspawn Hstatus.
  rewrite (process_stage_llc_failed _ _ _ _ _ _ _ _ _ _ _ Hspawn Hstatus).
  reflexivity.
Qed.

End ObjectStageFailures.

(** * Further properties of the command line *)

Section ValidationOrder.

Import Cli.

Lemma validate_loop_skips args before pairs :
  Forall (fun pair => ~ offends args pair) before ->
  validate_loop args (before ++ pairs) = validate_loop args pairs.
Proof.
  induction 1 as [| [store stage] rest Hhead _ IH]; [reflexivity |].
  cbn [app validate_loop].
  destruct (is_not_None store && Stage_ge (input_stage args) stage) eqn:E.
  - apply offends_test in E. contradiction.
  - rewrite bind_ret_l. exact IH.
Qed.

Lemma validate_loop_passes_inv args pairs :
  validate_loop args pairs = ([], Return tt) ->
  Forall (fun pair => ~ offends args pair) pairs.
Proof.
  induction pairs as [| [store stage] rest IH]; [constructor |].
  cbn [validate_loop].
  destruct (is_not_None store && Stage_ge (input_stage args) stage) eqn:E.
  - discriminate.
  - rewrite bind_ret_l. intros Hrest. constructor; [| exact (IH Hrest)].
    intros Hoff. apply offends_test in Hoff. congruence.
Qed.

Lemma validate_loop_cases args pairs :
  validate_loop args pairs = ([], Return tt)
  \/ exists stage,
       validate_loop args pairs
       = ([ParserError (cannot_produce stage)], Raise (SystemExit 2)).
Proof.
  induction pairs as [| [store stage] rest IH]; [left; reflexivity |].
  cbn [validate_loop].
  destruct (is_not_None store && Stage_ge (input_stage args) stage).
  - right. exists stage. reflexivity.
  - rewrite bind_ret_l. exact IH.
Qed.

(** X8: the usage error names the first offender in the order hugr,
    hugr-mlir, llvm-mlir, llvm, obj, bin.  If [--store-hugr] asks for a
    stage at or before the input stage the message names HUGR; if it does
    not and [--store-hugr-mlir] does, the message names HUGR_MLIR; and so
    on through [--store-llvm-mlir] (LOWERED_MLIR), [--store-llvm] (LLVM),
    [--store-obj] (OBJECT) and [--store-bin] (EXECUTABLE), each time
    whatever the later options are. *)
Theorem validate_args_reports_first_offender args :
  (offends args (store_hugr args, HUGR) ->
   validate_args args = ([ParserError (cannot_produce HUGR)], Raise (SystemExit 2)))
  /\ (~ offends args (store_hugr args, HUGR) ->
      offends args (store_hugr_mlir args, HUGR_MLIR) ->
      validate_args args
      = ([ParserError (cannot_produce HUGR_MLIR)], Raise (SystemExit 2)))
  /\ (~ offends args (store_hugr args, HUGR) ->
      ~ offends args (store_hugr_mlir args, HUGR_MLIR) ->
      offends args (store_llvm_mlir args, LOWERED_MLIR) ->
      validate_args args
      = ([ParserError (cannot_produce LOWERED_MLIR)], Raise (SystemExit 2)))
  /\ (~ offends args (store_hugr args, HUGR) ->
      ~ offends args (store_hugr_mlir args, HUGR_MLIR) ->
      ~ offends args (store_llvm_mlir args, LOWERED_MLIR) ->
      offends args (store_llvm args, LLVM) ->
      validate_args args
      = ([ParserError (cannot_produce LLVM)], Raise (SystemExit 2)))
  /\ (~ offends args (store_hugr args, HUGR) ->
      ~ offends args (store_hugr_mlir args, HUGR_MLIR) ->
      ~ offends args (store_llvm_mlir args, LOWERED_MLIR) ->
      ~ offends args (store_llvm args, LLVM) ->
      offends args (store_obj args, OBJECT) ->
      validate_args args
      = ([ParserError (cannot_produce OBJECT)], Raise (SystemExit 2)))
  /\ (~ offends args (store_hugr args, HUGR) ->
      ~ offends args (store_hugr_mlir args, HUGR_MLIR) ->
      ~ offends args (store_llvm_mlir args, LOWERED_MLIR) ->
      ~ offends args (store_llvm args, LLVM) ->
      ~ offends args (store_obj args, OBJECT) ->
      offends args (store_bin args, EXECUTABLE) ->
      validate_args args
      = ([ParserError (cannot_produce EXECUTABLE)], Raise (SystemExit 2))).
Proof.
  assert (Hstep : forall before store stage after,
            store_requires args = before ++ (store, stage) :: after ->
            Forall (fun pair => ~ offends args pair) before ->
            offends args (store, stage) ->
            validate_args args
            = ([ParserError (cannot_produce stage)], Raise (SystemExit 2))).
  { intros before store stage after Hsplit Hbefore Hoff.
    unfold validate_args. rewrite Hsplit.
    rewrite validate_loop_skips by exact Hbefore. cbn [validate_loop].
    apply offends_test in Hoff. rewrite Hoff. reflexivity. }
  repeat split; intros.
  - apply (Hstep [] _ _ _ eq_refl); [constructor | assumption].
  - apply (Hstep [_] _ _ _ eq_refl); [repeat constructor | ]; assumption.
  - apply (Hstep [_; _] _ _ _ eq_refl); [repeat constructor | ]; assumption.
  - apply (Hstep [_; _; _] _ _ _ eq_refl); [repeat constructor | ]; assumption.
  - apply (Hstep [_; _; _; _] _ _ _ eq_refl); [repeat constructor | ]; assumption.
  - apply (Hstep [_; _; _; _; _] _ _ _ eq_refl); [repeat constructor | ]; assumption.
Qed.

(** X9: validation is monotone in the input stage: store options that are
    accepted for an input stage are accepted for every earlier one. *)
Theorem validate_args_monotone args earlier later :
  Stage_ge later earlier = true ->
  validate_args (set_input_stage args later) = ([], Return tt) ->
  validate_args (set_input_stage args earlier) = ([], Return tt).
Proof.
  unfold validate_args, Stage_ge. intros Hle Hpass. apply Z.leb_le in Hle.
  apply validate_loop_passes_inv in Hpass. apply validate_loop_passes.
  change (store_requires (set_input_stage args earlier))
    with (store_requires (set_input_stage args later)).
  eapply Forall_impl; [exact Hpass |].
  intros [store stage] Hnot [Hset Hstage]. apply Hnot.
  split; [exact Hset |]. cbn [fst snd set_input_stage input_stage] in *. lia.
Qed.

(** X10: the message of the usage error determines the stage: two stages
    have the same message exactly when they are the same stage. *)
Theorem cannot_produce_injective stage1 stage2 :
  cannot_produce stage1 = cannot_produce stage2 <-> stage1 = stage2.
Proof.
  split; [| intros ->; reflexivity].
  destruct stage1, stage2; intros H; try reflexivity;
    vm_compute in H; discriminate H.
Qed.

(** X11: on a parseable command line each stage flag selects its own
    stage, and the stage tells which flag was given: HUGR exactly for
    [--hugr], HUGR_MLIR for [--hugr-mlir], LOWERED_MLIR for [--llvm-mlir],
    LLVM for [--llvm], and GUPPY exactly when none is given. *)
Theorem get_input_state_flags ns :
  parseable ns = true ->
  (get_input_state ns = HUGR <-> hugr ns = true)
  /\ (get_input_state ns = HUGR_MLIR <-> hugr_mlir ns = true)
  /\ (get_input_state ns = LOWERED_MLIR <-> llvm_mlir ns = true)
  /\ (get_input_state ns = LLVM <-> llvm ns = true)
  /\ (get_input_state ns = GUPPY
      <-> hugr ns = false /\ hugr_mlir ns = false
          /\ llvm_mlir ns = false /\ llvm ns = false).
Proof.
  unfold parseable, count_true, get_input_state. intros Hp.
  apply andb_true_iff in Hp as [Hp _].
  destruct (hugr ns), (hugr_mlir ns), (llvm_mlir ns), (llvm ns);
    cbn in Hp; try discriminate Hp; intuition congruence.
Qed.

End ValidationOrder.

Section MainRuns.

Import Cli.

Variable from_file : Pathlib.Path -> Stage -> option EncodingMode.
Variable StageData : Type.
Variable from_path : Stage -> Pathlib.Path -> EncodingMode -> Result StageData.
Variable from_stdin : Stage -> EncodingMode -> Result StageData.
Variable run_guppy_from_stage : StageData -> RunOptions -> bool.

(** X12: with no override, an input file whose extension the table knows
    gets the encoding of the table, and nothing is logged. *)
Theorem get_input_encoding_detected args p enc :
  textual args = false -> bitcode args = false ->
  input args = Some p -> from_file p (input_stage args) = Some enc ->
  get_input_encoding from_file args = ([], Return enc).
Proof.
  intros Ht Hb Hin Hfile. unfold get_input_encoding.
  rewrite Ht, Hb, Hin, Hfile. reflexivity.
Qed.

(** X13: the informational record is logged exactly when the default
    applies: neither override flag is given, there is an input file, and
    the table does not know its extension for the input stage. *)
Theorem get_input_encoding_logs_iff args :
  trace (get_input_encoding from_file args) <> []
  <-> (textual args = false /\ bitcode args = false
       /\ exists p, input args = Some p /\ from_file p (input_stage args) = None).
Proof.
  unfold get_input_encoding.
  destruct (textual args); [cbn; split; [congruence | intros [H _]; discriminate H] |].
  destruct (bitcode args);
    [cbn; split; [congruence | intros (_ & H & _); discriminate H] |].
  destruct (input args) as [p |].
  - destruct (from_file p (input_stage args)) eqn:E; cbn.
    + split; [congruence |]. intros (_ & _ & q & Hq & Hnone).
      injection Hq as <-. congruence.
    + split; [| discriminate]. intros _. repeat split. eauto.
  - cbn. split; [congruence |]. intros (_ & _ & q & Hq & _). discriminate Hq.
Qed.

Lemma parse_args_accepts ns log args :
  parse_args from_file ns = (log, Return args) ->
  exists enc,
    args = set_input_encoding (set_input_stage ns (get_input_state ns)) enc
    /\ get_input_encoding from_file (set_input_stage ns (get_input_state ns))
       = (log, Return enc)
    /\ validate_args args = ([], Return tt).
Proof.
  intros Hparse.
  destruct (parse_args_run from_file ns) as (log' & enc & Henc & _ & Hrun).
  rewrite Hrun in Hparse. clear Hrun. exists enc.
  set (args' := set_input_encoding (set_input_stage ns (get_input_state ns)) enc) in *.
  destruct (validate_loop_cases args' (store_requires args')) as [Hval | [stage Hval]];
    fold (validate_args args') in Hval; rewrite Hval in Hparse; cbn in Hparse.
  - rewrite app_nil_r in Hparse. injection Hparse as <- <-.
    split; [reflexivity |]. split; [exact Henc | exact Hval].
  - discriminate Hparse.
Qed.

Lemma bind_assoc {A B C} (m : M A) (f : A -> M B) (g : B -> M C) :
  bind (bind m f) g = bind m (fun x => bind (f x) g).
Proof.
  destruct m as [t [a | e]]; [| reflexivity]. cbn.
  destruct (f a) as [t1 [b | e1]]; [| reflexivity]. cbn.
  destruct (g b) as [t2 r]. rewrite app_assoc. reflexivity.
Qed.

(** [main] with [parse_args] unfolded: one chain of steps over the
    namespace that argparse returns. *)
Lemma main_steps ns :
  main from_file StageData from_path from_stdin run_guppy_from_stage ns
  = bind (get_input_encoding from_file (set_input_stage ns (get_input_state ns)))
      (fun enc =>
         bind (validate_args
                 (set_input_encoding (set_input_stage ns (get_input_state ns)) enc))
           (fun _ =>
              bind (if verbose ns then emit BasicConfigInfo else ret tt)
                (fun _ =>
                   bind (match input ns with
                         | Some p =>
                             StageData_from_path StageData from_path
                               (get_input_state ns) p enc
                         | None =>
                             StageData_from_stdin StageData from_stdin
                               (get_input_state ns) enc
                         end)
                     (fun stage_data =>
                        bind (call_run_guppy_from_stage StageData run_guppy_from_stage
                                stage_data (run_options ns))
                          (fun success =>
                             if negb success then raise (SystemExit 1) else ret tt))))).
Proof.
  unfold main, parse_args. rewrite bind_assoc.
  destruct (get_input_encoding from_file _) as [log [enc | e]]; [| reflexivity].
  cbn [bind]. f_equal. rewrite bind_assoc.
  destruct (validate_args _) as [t [[] | e]]; [| reflexivity].
  cbn [bind]. rewrite bind_ret_l.
  cbn [verbose input input_stage input_encoding set_input_encoding set_input_stage].
  destruct (input ns); reflexivity.
Qed.

(** X14: the order of a run.  Once the arguments are accepted and the
    input artifact is read, the trace of [main] is the log of the encoding
    resolution, then the logging set-up when [--verbose] is given, then one
    read of the input (the file when given, else the standard input, at the
    stage of the flags and the resolved encoding), then one call of the
    pipeline whose outputs are the values of [--store-hugr],
    [--store-hugr-mlir], [--store-llvm-mlir], [--store-llvm], [--store-obj]
    and [--store-bin], with [--no-run] and [--module] as given. *)
Theorem main_runs_in_order ns log args stage_data :
  parse_args from_file ns = (log, Return args) ->
  match input args with
  | Some p => from_path (input_stage args) p (input_encoding args)
  | None => from_stdin (input_stage args) (input_encoding args)
  end = Return stage_data ->
  trace (main from_file StageData from_path from_stdin run_guppy_from_stage ns)
  = log ++ (if verbose ns then [BasicConfigInfo] else [])
        ++ [match input ns with
            | Some p => ReadPath (get_input_state ns) p (input_encoding args)
            | None => ReadStdin (get_input_state ns) (input_encoding args)
            end;
            RunPipeline {| hugr_out := store_hugr ns;
                           hugr_mlir_out := store_hugr_mlir ns;
                           lowered_mlir_out := store_llvm_mlir ns;
                           llvm_out := store_llvm ns;
                           obj_out := store_obj ns;
                           bin_out := store_bin ns;
                           opt_no_run := no_run ns;
                           opt_module_name := module_name ns |}]
  /\ input_stage args = get_input_state ns.
Proof.
  intros Hparse Hread.
  destruct (parse_args_accepts ns log args Hparse) as (enc & -> & Henc & Hval).
  split; [| reflexivity].
  rewrite main_steps, Henc. cbn [bind]. rewrite Hval. cbn [bind].
  unfold StageData_from_path, StageData_from_stdin,
    call_run_guppy_from_stage, run_options.
  cbn [input input_stage input_encoding set_input_encoding set_input_stage] in *.
  destruct (verbose ns), (input ns); rewrite Hread; cbn;
    destruct (run_guppy_from_stage _ _); reflexivity.
Qed.


(** X16: the value of [-o/--output] is never read: replacing it changes
    neither the trace nor the result of [main]. *)
Theorem main_ignores_output ns o :
  main from_file StageData from_path from_stdin run_guppy_from_stage
       (with_output ns o)
  = main from_file StageData from_path from_stdin run_guppy_from_stage ns.
Proof. rewrite !main_steps. reflexivity. Qed.

(** X17: [--verbose] changes nothing but the logging set-up: with or
    without it [main] ends with the same result, and the traces agree once
    the set-up event is left out. *)
Theorem main_verbose_only_configures_logging ns b :
  result (main from_file StageData from_path from_stdin run_guppy_from_stage
               (with_verbose ns b))
  = result (main from_file StageData from_path from_stdin run_guppy_from_stage ns)
  /\ List.filter (fun ev => negb (is_basic_config ev))
       (trace (main from_file StageData from_path from_stdin run_guppy_from_stage
                    (with_verbose ns b)))
     = List.filter (fun ev => negb (is_basic_config ev))
         (trace (main from_file StageData from_path from_stdin run_guppy_from_stage ns)).
Proof.
  rewrite !main_steps.
  change (get_input_encoding from_file
            (set_input_stage (with_verbose ns b) (get_input_state (with_verbose ns b))))
    with (get_input_encoding from_file (set_input_stage ns (get_input_state ns))).
  destruct (get_input_encoding from_file _) as [log [enc | e]]; [| split; reflexivity].
  cbn [bind].
  change (validate_args
            (set_input_encoding
               (set_input_stage (with_verbose ns b) (get_input_state (with_verbose ns b)))
               enc))
    with (validate_args
            (set_input_encoding (set_input_stage ns (get_input_state ns)) enc)).
  destruct (validate_args _) as [t [[] | e]]; [| split; reflexivity].
  cbn [bind verbose with_verbose input get_input_state hugr hugr_mlir llvm_mlir llvm].
  change (run_options (with_verbose ns b)) with (run_options ns).
  unfold StageData_from_path, StageData_from_stdin, call_run_guppy_from_stage.
  destruct b, (verbose ns), (input ns) as [p |];
    cbn; try destruct (from_path _ _ _) as [sd | e];
    try destruct (from_stdin _ _) as [sd | e];
    cbn; try destruct (run_guppy_from_stage _ _); cbn;
    rewrite ?List.filter_app; cbn; rewrite ?List.filter_app; split; reflexivity.
Qed.

Lemma main_pipeline_call ns opts :
  In (RunPipeline opts)
     (trace (main from_file StageData from_path from_stdin run_guppy_from_stage ns)) ->
  opts = run_options ns
  /\ Forall (fun pair => ~ offends (set_input_stage ns (get_input_state ns)) pair)
            (store_requires ns).
Proof.
  rewrite main_steps.
  destruct (get_input_encoding_returns from_file
              (set_input_stage ns (get_input_state ns))) as (enc & Hres & Hlog).
  destruct (get_input_encoding from_file _) as [log r].
  cbn [trace result fst snd] in Hres, Hlog. subst r. cbn [bind].
  rewrite List.Forall_forall in Hlog.
  destruct (validate_loop_cases
              (set_input_encoding (set_input_stage ns (get_input_state ns)) enc)
              (store_requires ns)) as [Hval | [stage Hval]];
    unfold validate_args;
    change (store_requires (set_input_encoding _ enc)) with (store_requires ns);
    rewrite Hval; cbn [bind].
  - intros Hin. split.
    + unfold StageData_from_path, StageData_from_stdin, call_run_guppy_from_stage in Hin.
      cbn [trace fst] in Hin.
      destruct (verbose ns), (input ns) as [p |]; cbn in Hin;
        try destruct (from_path _ _ _) as [sd | e];
        try destruct (from_stdin _ _) as [sd | e];
        cbn in Hin; try destruct (run_guppy_from_stage _ _); cbn in Hin;
        apply in_app_or in Hin as [Hin | Hin];
        try (apply Hlog in Hin; discriminate Hin);
        cbn in Hin; intuition congruence.
    + apply validate_loop_passes_inv in Hval. exact Hval.
  - cbn [trace fst]. intros Hin. apply in_app_or in Hin as [Hin | Hin].
    + apply Hlog in Hin. discriminate Hin.
    + destruct Hin as [Hin | []]. discriminate Hin.
Qed.

(** X18: the pipeline only ever gets outputs that lie after the input.
    Whenever [main] calls the pipeline, its outputs are the values of the
    six store options ([--store-hugr], [--store-hugr-mlir],
    [--store-llvm-mlir], [--store-llvm], [--store-obj], [--store-bin]) with
    [--no-run] and [--module] as given, and every output that is given is
    for a stage strictly after the input stage: the input stage is not at
    or past HUGR, HUGR_MLIR, LOWERED_MLIR, LLVM, OBJECT or EXECUTABLE
    whenever the matching output is given. *)
Theorem main_pipeline_outputs_after_input ns opts :
  In (RunPipeline opts)
     (trace (main from_file StageData from_path from_stdin run_guppy_from_stage ns)) ->
  (hugr_out opts = store_hugr ns
   /\ hugr_mlir_out opts = store_hugr_mlir ns
   /\ lowered_mlir_out opts = store_llvm_mlir ns
   /\ llvm_out opts = store_llvm ns
   /\ obj_out opts = store_obj ns
   /\ bin_out opts = store_bin ns
   /\ opt_no_run opts = no_run ns
   /\ opt_module_name opts = module_name ns)
  /\ (hugr_out opts <> None -> Stage_ge (get_input_state ns) HUGR = false)
  /\ (hugr_mlir_out opts <> None -> Stage_ge (get_input_state ns) HUGR_MLIR = false)
  /\ (lowered_mlir_out opts <> None ->
      Stage_ge (get_input_state ns) LOWERED_MLIR = false)
  /\ (llvm_out opts <> None -> Stage_ge (get_input_state ns) LLVM = false)
  /\ (obj_out opts <> None -> Stage_ge (get_input_state ns) OBJECT = false)
  /\ (bin_out opts <> None -> Stage_ge (get_input_state ns) EXECUTABLE = false).
Proof.
  intros Hin. destruct (main_pipeline_call ns opts Hin) as [-> Hall].
  split; [repeat split |].
  unfold store_requires in Hall.
  repeat match goal with
         | H : Forall _ (_ :: _) |- _ => apply Forall_cons in H as [? H]
         end.
  assert (Hafter : forall store stage,
            ~ offends (set_input_stage ns (get_input_state ns)) (store, stage) ->
            store <> None -> Stage_ge (get_input_state ns) stage = false).
  { intros store stage Hnot Hset. unfold Stage_ge. apply Z.leb_gt.
    destruct (Z_lt_dec (Stage_value (get_input_state ns)) (Stage_value stage))
      as [Hlt | Hge]; [exact Hlt |].
    exfalso. apply Hnot. split; [exact Hset |].
    cbn [fst snd set_input_stage input_stage]. lia. }
  cbn [run_options hugr_out hugr_mlir_out lowered_mlir_out llvm_out obj_out bin_out].
  repeat split; apply Hafter; assumption.
Qed.

(** X19: a Guppy input accepts every store option: with no stage flag the
    arguments are accepted whatever store options are given, the input
    stage is GUPPY, and the options reach the pipeline unchanged. *)
Theorem guppy_input_accepts_every_store ns :
  hugr ns = false -> hugr_mlir ns = false -> llvm_mlir ns = false ->
  llvm ns = false ->
  exists log args,
    parse_args from_file ns = (log, Return args)
    /\ input_stage args = GUPPY
    /\ run_options args = run_options ns.
Proof.
  intros H1 H2 H3 H4.
  destruct (parse_args_run from_file ns) as (log & enc & _ & _ & Hrun).
  assert (Hst : get_input_state ns = GUPPY)
    by (unfold get_input_state; rewrite H1, H2, H3, H4; reflexivity).
  exists log, (set_input_encoding (set_input_stage ns (get_input_state ns)) enc).
  split; [| split; [exact Hst | reflexivity]].
  rewrite Hrun. unfold validate_args. rewrite validate_loop_passes.
  - cbn. rewrite app_nil_r. reflexivity.
  - rewrite Hst. repeat constructor; intros [Hset Hle];
      cbn [fst snd set_input_encoding set_input_stage input_stage Stage_value] in Hle; lia.
Qed.

End MainRuns.

(** * Closed instances of the further properties *)

Lemma process_stage_succeeds_iff_witness :
  exists p,
    result (LlvmCompiler.process_stage ∅ spawn_ok latin1 (Pathlib.of_str "main.ll")
              TEXTUAL (Some (Pathlib.of_str "out.o")) BITCODE false None)
    = Return p.
Proof.
  apply (process_stage_succeeds_iff ∅ spawn_ok latin1).
  split; [reflexivity |]. exists [], []. reflexivity.
Defined.

Lemma process_stage_os_error_propagates_witness :
  result (LlvmCompiler.process_stage ∅ spawn_denied latin1 (Pathlib.of_str "main.ll")
            TEXTUAL None BITCODE false None)
  = Raise (OSError 13).
Proof.
  pose proof (process_stage_os_error_propagates ∅ spawn_denied latin1
                (Pathlib.of_str "main.ll") TEXTUAL None false None 13%Z eq_refl)
    as (Hrun & _).
  rewrite Hrun. reflexivity.
Defined.

Lemma process_stage_command_only_llc_witness :
  env_override_path !! "LLC" = env_override !! "LLC"
  /\ trace (LlvmCompiler.process_stage env_override_path spawn_missing latin1
              (Pathlib.of_str "main.ll") TEXTUAL None BITCODE false None)
     = trace (LlvmCompiler.process_stage env_override spawn_ok latin1
                (Pathlib.of_str "main.ll") TEXTUAL None BITCODE false None).
Proof.
  assert (H : env_override_path !! "LLC" = env_override !! "LLC")
    by (vm_compute; reflexivity).
  split; [exact H |].
  apply (process_stage_command_only_llc env_override spawn_ok latin1
           env_override_path spawn_missing latin1). exact H.
Defined.

Lemma llc_error_reports_first_line_only_witness :
  result (LlvmCompiler.process_stage ∅
            (spawn_fails (list_byte_of_string "bad input"
                          ++ x0a :: list_byte_of_string "more"))
            latin1 (Pathlib.of_str "main.ll") TEXTUAL None BITCODE false None)
  = Raise (LlcError ("An error occurred while calling 'llc':" +:+ LlvmCompiler.NL
                     +:+ Py.bytes_repr (list_byte_of_string "bad input"))).
Proof.
  apply (llc_error_reports_first_line_only ∅ _ latin1 _ TEXTUAL None false None
           1%Z [] (list_byte_of_string "bad input") x0a (list_byte_of_string "more")).
  - reflexivity.
  - lia.
  - vm_compute. repeat constructor.
  - reflexivity.
Defined.

Lemma llc_error_reports_unterminated_line_witness :
  result (LlvmCompiler.process_stage ∅
            (spawn_fails (list_byte_of_string "bad input"))
            latin1 (Pathlib.of_str "main.ll") TEXTUAL None BITCODE false None)
  = Raise (LlcError ("An error occurred while calling 'llc':" +:+ LlvmCompiler.NL
                     +:+ Py.bytes_repr (list_byte_of_string "bad input"))).
Proof.
  apply (llc_error_reports_unterminated_line ∅ _ latin1 _ TEXTUAL None false None
           1%Z [] (list_byte_of_string "bad input")).
  - reflexivity.
  - lia.
  - vm_compute. discriminate.
  - vm_compute. repeat constructor.
Defined.

Lemma llc_error_empty_stream_witness :
  result (LlvmCompiler.process_stage ∅ (spawn_fails []) latin1
            (Pathlib.of_str "main.ll") TEXTUAL None BITCODE false None)
  = Raise (LlcError ("An error occurred while calling 'llc':" +:+ LlvmCompiler.NL)).
Proof.
  apply (llc_error_empty_stream ∅ _ latin1 _ TEXTUAL None false None 1%Z []).
  - reflexivity.
  - lia.
Defined.

Lemma validate_args_reports_first_offender_witness :
  Cli.validate_args (Cli.set_input_stage ns_llvm_two_stores LLVM)
  = ([ParserError (Cli.cannot_produce HUGR_MLIR)], Raise (SystemExit 2)).
Proof.
  pose proof (validate_args_reports_first_offender
                (Cli.set_input_stage ns_llvm_two_stores LLVM))
    as (_ & Hsecond & _).
  apply Hsecond.
  - intros [Hset _]. apply Hset. reflexivity.
  - split; [discriminate | vm_compute; discriminate].
Defined.

Lemma validate_args_monotone_witness :
  Cli.validate_args (Cli.set_input_stage ns_llvm_store_obj HUGR) = ([], Return tt).
Proof.
  apply (validate_args_monotone ns_llvm_store_obj HUGR LLVM); reflexivity.
Defined.

Lemma get_input_state_flags_witness :
  Cli.parseable ns_llvm_store_hugr = true
  /\ Cli.get_input_state ns_llvm_store_hugr = LLVM.
Proof.
  pose proof (get_input_state_flags ns_llvm_store_hugr eq_refl)
    as (_ & _ & _ & Hllvm & _).
  split; [reflexivity | apply Hllvm; reflexivity].
Defined.

Lemma get_input_encoding_detected_witness :
  Cli.get_input_encoding from_file_py ns_plain = ([], Return TEXTUAL).
Proof.
  apply (get_input_encoding_detected from_file_py ns_plain (Pathlib.of_str "main.py"));
    reflexivity.
Defined.

Lemma get_input_encoding_logs_iff_witness :
  trace (Cli.get_input_encoding from_file_unknown ns_unknown) <> [].
Proof.
  apply (get_input_encoding_logs_iff from_file_unknown ns_unknown).
  split; [reflexivity |]. split; [reflexivity |].
  exists (Pathlib.of_str "main.xyz"). split; reflexivity.
Defined.

Lemma main_runs_in_order_witness :
  trace (Cli.main from_file_unknown unit read_path_ok read_stdin_ok
                  (pipeline_reports true) ns_llvm_store_obj)
  = [LogInfo Cli.DETECT_MSG [BITCODE];
     ReadPath LLVM (Pathlib.of_str "main.ll") BITCODE;
     RunPipeline {| hugr_out := None; hugr_mlir_out := None;
                    lowered_mlir_out := None; llvm_out := None;
                    obj_out := Some (Pathlib.of_str "out.o"); bin_out := None;
                    opt_no_run := false; opt_module_name := None |}].
Proof.
  apply (main_runs_in_order from_file_unknown unit read_path_ok read_stdin_ok
           (pipeline_reports true) ns_llvm_store_obj
           [LogInfo Cli.DETECT_MSG [BITCODE]]
           (Cli.set_input_encoding (Cli.set_input_stage ns_llvm_store_obj LLVM) BITCODE)
           tt);
    reflexivity.
Defined.


Lemma main_pipeline_outputs_after_input_witness :
  obj_out (Cli.run_options ns_llvm_store_obj) = Some (Pathlib.of_str "out.o")
  /\ Stage_ge (Cli.get_input_state ns_llvm_store_obj) OBJECT = false.
Proof.
  pose proof (main_pipeline_outputs_after_input from_file_unknown unit read_path_ok
                read_stdin_ok (pipeline_reports true) ns_llvm_store_obj
                (Cli.run_options ns_llvm_store_obj))
    as Hcall.
  destruct Hcall as ((_ & _ & _ & _ & Hobj & _) & _ & _ & _ & _ & Hafter & _).
  - vm_compute. right. right. left. reflexivity.
  - split; [exact Hobj | apply Hafter; discriminate].
Defined.

Lemma guppy_input_accepts_every_store_witness :
  exists log args,
    Cli.parse_args from_file_py ns_guppy_all_stores = (log, Return args)
    /\ Cli.input_stage args = GUPPY
    /\ Cli.run_options args = Cli.run_options ns_guppy_all_stores.
Proof.
  apply (guppy_input_accepts_every_store from_file_py ns_guppy_all_stores);
    reflexivity.
Defined.

Section ResolvedEncoding.

Import Cli.

Variable from_file : Pathlib.Path -> Stage -> option EncodingMode.

(** X20: the encoding that accepted arguments carry.  [parse_args] looks
    the extension up for the stage that the flags select, so the encoding
    of the accepted arguments is TEXTUAL with [--textual], else BITCODE
    with [--bitcode], else TEXTUAL for the standard input, else what the
    table gives the input file at the stage of the flags, and BITCODE when
    it gives nothing. *)
Theorem parse_args_resolved_encoding ns log args :
  parse_args from_file ns = (log, Return args) ->
  input_stage args = get_input_state ns
  /\ input_encoding args
     = (if textual ns then TEXTUAL
        else if bitcode ns then BITCODE
        else match input ns with
             | None => TEXTUAL
             | Some p => match from_file p (get_input_state ns) with
                         | Some enc => enc
                         | None => BITCODE
                         end
             end).
Proof.
  intros Hparse.
  destruct (parse_args_accepts from_file ns log args Hparse) as (enc & -> & Henc & _).
  split; [reflexivity |].
  cbn [input_encoding set_input_encoding].
  unfold get_input_encoding in Henc.
  cbn [textual bitcode input input_stage set_input_stage] in Henc.
  destruct (textual ns); [injection Henc as _ <-; reflexivity |].
  destruct (bitcode ns); [injection Henc as _ <-; reflexivity |].
  destruct (input ns) as [p |]; [| injection Henc as _ <-; reflexivity].
  destruct (from_file p (get_input_state ns)); injection Henc as _ <-; reflexivity.
Qed.

End ResolvedEncoding.

Lemma parse_args_resolved_encoding_witness :
  Cli.input_stage (Cli.set_input_encoding (Cli.set_input_stage ns_stdin GUPPY) TEXTUAL)
  = GUPPY
  /\ Cli.input_encoding
       (Cli.set_input_encoding (Cli.set_input_stage ns_stdin GUPPY) TEXTUAL)
     = TEXTUAL.
Proof.
  apply (parse_args_resolved_encoding from_file_unknown ns_stdin []
           (Cli.set_input_encoding (Cli.set_input_stage ns_stdin GUPPY) TEXTUAL)).
  reflexivity.
Defined.
